(** * Apps/users/serializers.py: the user serializers

    A shallow embedding of [UserSerializer] and [ChangePasswordSerializer].
    Python dictionaries are finite maps from field names to values,
    exceptions are an explicit result type, and the collaborators the
    serializers call (the user model and its manager, the password policy,
    the serializer base classes) are interfaces. *)

From stdpp Require Import base option list strings gmap sets.

Open Scope string_scope.

(** ** Values and attribute dictionaries *)

(** The values a field can hold: [None], booleans, strings and a reference to
    a user object ([created_by] is stamped with [request.user]).  There are
    no numbers, so Python's [==] is structural equality on this type. *)
Inductive Value (User : Type) : Type :=
  | VNone
  | VBool (b : bool)
  | VStr (s : string)
  | VUser (u : User).
Arguments VNone {User}.
Arguments VBool {User} b.
Arguments VStr {User} s.
Arguments VUser {User} u.

#[global] Instance Value_eq_dec `{EqDecision User} : EqDecision (Value User).
Proof. solve_decision. Defined.

(** [attrs], [validated_data] and the request payload. *)
Abbreviation Attrs User := (gmap string (Value User)).

(** ** Exceptions *)

(** The [detail] of a [serializers.ValidationError]: a message, a list of
    details or a dictionary of details (in insertion order). *)
#[warnings="-register-all"]
Inductive detail : Type :=
  | ErrorDetail (msg : string)
  | DetailList (items : list detail)
  | DetailDict (items : list (string * detail)).

Inductive exn : Type :=
  | ValidationError (d : detail)
  | KeyError (key : string).

(** [serializers.ValidationError("...")]: a bare message is wrapped in a
    list. *)
Definition ValidationError_str (msg : string) : exn :=
  ValidationError (DetailList [ErrorDetail msg]).

(** [serializers.ValidationError({field: "..."})]. *)
Definition ValidationError_dict (field msg : string) : exn :=
  ValidationError (DetailDict [(field, ErrorDetail msg)]).

(** A call either returns or raises. *)
Inductive Result (A : Type) : Type :=
  | Ok (a : A)
  | Raise (e : exn).
Arguments Ok {A} a.
Arguments Raise {A} e.

#[global] Instance Result_ret : MRet Result := λ A a, Ok a.
#[global] Instance Result_bind : MBind Result := λ A B f r,
  match r with
  | Ok a => f a
  | Raise e => Raise e
  end.

(** [d[key]] *)
Definition getitem {V} (d : gmap string V) (key : string) : Result V :=
  match d !! key with
  | Some v => Ok v
  | None => Raise (KeyError key)
  end.

(** [d.pop(key)]: the value and the dictionary without the key. *)
Definition pop {V} (key : string) (d : gmap string V) : Result (V * gmap string V) :=
  match d !! key with
  | Some v => Ok (v, delete key d)
  | None => Raise (KeyError key)
  end.

(** [key in d] *)
Definition contains {V} (key : string) (d : gmap string V) : bool :=
  bool_decide (is_Some (d !! key)).

(** ** Stateful calls *)

(** Calls that reach the database thread its state; an exception leaves the
    state as it was when it was raised. *)
Definition M (Store A : Type) : Type := Store → Result A * Store.

Definition M_ret {Store A} (a : A) : M Store A := λ s, (Ok a, s).

Definition M_bind {Store A B} (m : M Store A) (f : A → M Store B) : M Store B :=
  λ s, match m s with
       | (Ok a, s') => f a s'
       | (Raise e, s') => (Raise e, s')
       end.

Definition M_lift {Store A} (r : Result A) : M Store A := λ s, (r, s).

Declare Scope M_scope.
Delimit Scope M_scope with M.
Notation "x ←ₘ m ; k" := (M_bind m (λ x, k))
  (at level 20, m at level 100, k at level 200, only parsing) : M_scope.

(** ** The user model *)

Module Models.
(** [django.contrib.auth.models.Permission], read through [codename]. *)
Record Permission : Type := { codename : string }.

(** A permission attached to a role, read through [code]. *)
Record RolePermission : Type := { code : string }.

Record Role : Type := { permissions : list RolePermission }.

(** A role assignment: [user_role.role] and [user_role.is_active]. *)
Record UserRole : Type := { role : Role; is_active : bool }.

#[global] Instance Permission_eq_dec : EqDecision Permission.
Proof. solve_decision. Defined.
#[global] Instance RolePermission_eq_dec : EqDecision RolePermission.
Proof. solve_decision. Defined.
#[global] Instance Role_eq_dec : EqDecision Role.
Proof. solve_decision. Defined.
#[global] Instance UserRole_eq_dec : EqDecision UserRole.
Proof. solve_decision. Defined.
End Models.
Export Models.

(** What the serializers use of the user model, its manager and the model
    serializer's generic update.  [Store] is the database. *)
Class IdentityStore (User Store : Type) : Type := {
  (** [obj.is_superuser] *)
  is_superuser : User → bool;
  (** the rows of [obj.user_permissions] *)
  user_permissions : Store → User → list Permission;
  (** the rows of [obj.user_roles] *)
  user_roles : Store → User → list UserRole;
  (** [instance.set_password(raw)]: changes the instance in memory *)
  set_password : User → Value User → User;
  (** [user.check_password(raw)] *)
  check_password : User → Value User → bool;
  (** [User.objects.create_user] called with the dictionary as keyword
      arguments *)
  create_user : Attrs User → M Store User;
  (** [ModelSerializer.update(instance, validated_data)]: sets every
      attribute of [validated_data] on the instance and saves it *)
  ModelSerializer_update : User → Attrs User → M Store User;
}.

(** [django.contrib.auth.password_validation.validate_password]: [None] when
    it returns, [Some msgs] when it raises a validation error with these
    messages. *)
Class PasswordPolicy (User : Type) : Type := {
  validate_password : Value User → option (list string);
}.

(** [self.context]: the serializers read [self.context['request'].user]. *)
Record Context (User : Type) : Type := { request_user : User }.
Arguments request_user {User} c.

(** ** Serializer fields and the validation pass of the host framework *)

(** The keyword arguments of a serializer field that the validation pass
    reads.  A validator returns [None] when it accepts the value and
    [Some msgs] when it raises a validation error with these messages. *)
Record Field (User : Type) : Type := {
  field_name : string;
  read_only : bool;
  write_only : bool;
  required : bool;
  allow_null : bool;
  validators : list (Value User → option (list string));
}.
Arguments field_name {User} f.
Arguments read_only {User} f.
Arguments write_only {User} f.
Arguments required {User} f.
Arguments allow_null {User} f.
Arguments validators {User} f.

(** [Field.__init__]: [required] defaults to [not read_only] (no field here
    has a default value) and [allow_null] to [False]. *)
Definition Field_init {User} (name : string) (read_only write_only : bool)
    (required : option bool) (validators : list (Value User → option (list string)))
    : Field User :=
  {| field_name := name;
     read_only := read_only;
     write_only := write_only;
     required := default (negb read_only) required;
     allow_null := false;
     validators := validators |}.

(** What is taken from the host framework and from the user model without
    looking inside.  The checks that a field's class makes on its own
    (blank strings, lengths, forbidden characters) are part of
    [Field_to_internal_value]; [validators] of a field holds the validators
    its declaration lists. *)
Class Host (User : Type) : Type := {
  (** [field.to_internal_value(data)]: the coercion of the field's class with
      its built-in checks; [inr v] when it returns [v], [inl msgs] when it
      raises a validation error with these messages *)
  Field_to_internal_value : Field User → Value User → list string + Value User;
  (** [ModelSerializer.build_field]: the field generated for a name of
      [Meta.fields] that has no declaration in the serializer *)
  build_field : string → Field User;
  (** [ModelSerializer.get_validators]: the validators the model brings *)
  model_validators : list (Attrs User → option (list string));
}.

(** A serializer class, as the validation pass sees it. *)
Record Serializer (User : Type) : Type := {
  (** [self.fields], in order *)
  ser_fields : list (Field User);
  (** [getattr(self, 'validate_' + field_name, None)] *)
  ser_validate_method : string → option (Value User → Result (Value User));
  (** [self.validators] *)
  ser_validators : list (Attrs User → option (list string));
  (** [self.validate] *)
  ser_validate : Attrs User → Result (Attrs User);
}.
Arguments ser_fields {User} s.
Arguments ser_validate_method {User} s.
Arguments ser_validators {User} s.
Arguments ser_validate {User} s.

(** [errors[key] = d] on a dictionary kept in insertion order. *)
Fixpoint setitem (key : string) (d : detail) (errors : list (string * detail))
    : list (string * detail) :=
  match errors with
  | [] => [(key, d)]
  | (k, d') :: errors' =>
      if decide (k = key) then (k, d) :: errors'
      else (k, d') :: setitem key d errors'
  end.

(** [as_serializer_error]: every value of a dictionary becomes a list, and a
    list or a message is filed under [non_field_errors]. *)
Definition as_serializer_error (d : detail) : detail :=
  match d with
  | DetailDict items =>
      DetailDict ((λ kv : string * detail,
                     match kv.2 with
                     | ErrorDetail _ => (kv.1, DetailList [kv.2])
                     | _ => kv
                     end) <$> items)
  | DetailList _ => DetailDict [("non_field_errors", d)]
  | ErrorDetail _ => DetailDict [("non_field_errors", DetailList [d])]
  end.

(** [run_validators]: every validator runs, the messages are collected and
    raised together when there are any. *)
Definition run_validators {A} (validators : list (A → option (list string))) (x : A)
    : Result unit :=
  let errors := mjoin ((λ validator, default [] (validator x)) <$> validators) in
  match errors with
  | [] => Ok ()
  | _ => Raise (ValidationError (DetailList (ErrorDetail <$> errors)))
  end.

Section Validation.
Context {User : Type} `{!Host User}.

(** Modelled from the spec: the per-field step of the host framework's
    validation pass ([Field.run_validation]) is not part of the
    repository.  [data] is the payload entry for the field, [None] when
    the payload has none; the result [None] stands for a skipped field.
    A field missing from the payload is skipped on a partial update,
    refused when required ("requires [password] and [password2] when
    creating", "three required string fields") and skipped otherwise; a
    present value is coerced and checked by the field's validators
    ("checked against an external complexity policy before
    acceptance"). *)
Definition Field_run_validation (partial : bool) (field : Field User)
    (data : option (Value User)) : Result (option (Value User)) :=
  match data with
  | None =>
      if partial then Ok None
      else if required field then Raise (ValidationError_str "This field is required.")
      else Ok None
  | Some VNone =>
      if allow_null field then Ok (Some VNone)
      else Raise (ValidationError_str "This field may not be null.")
  | Some data =>
      match Field_to_internal_value field data with
      | inl msgs => Raise (ValidationError (DetailList (ErrorDetail <$> msgs)))
      | inr v => _ ← run_validators (validators field) v; Ok (Some v)
      end
  end.

(** One writable field of [to_internal_value]: the field's own validation,
    then its [validate_<field_name>] method when the class has one. *)
Definition validate_field (S : Serializer User) (partial : bool) (field : Field User)
    (data : Attrs User) : Result (option (Value User)) :=
  validated_value ← Field_run_validation partial field (data !! field_name field);
  match validated_value, ser_validate_method S (field_name field) with
  | Some v, Some validate_method => v' ← validate_method v; Ok (Some v')
  | _, _ => Ok validated_value
  end.

(** The loop of [to_internal_value] over the writable fields: a validation
    error is filed under the field's name and the loop goes on, any other
    exception leaves the loop. *)
Fixpoint to_internal_fields (S : Serializer User) (partial : bool)
    (fields : list (Field User)) (data ret : Attrs User)
    (errors : list (string * detail)) : Result (Attrs User * list (string * detail)) :=
  match fields with
  | [] => Ok (ret, errors)
  | field :: fields =>
      match validate_field S partial field data with
      | Ok (Some v) =>
          to_internal_fields S partial fields data (<[field_name field := v]> ret) errors
      | Ok None => to_internal_fields S partial fields data ret errors
      | Raise (ValidationError d) =>
          to_internal_fields S partial fields data ret (setitem (field_name field) d errors)
      | Raise e => Raise e
      end
  end.

(** [self._writable_fields] *)
Definition writable_fields (S : Serializer User) : list (Field User) :=
  filter (λ field, read_only field = false) (ser_fields S).

(** Modelled from the spec: [Serializer.to_internal_value] of the host
    framework is not part of the repository.  Only the fields that are not
    read-only are read from the payload ("never accepted as input — they
    are either system-derived or write-protected"), and the errors are
    "field-scoped": a dictionary from field names to details. *)
Definition to_internal_value (S : Serializer User) (partial : bool) (data : Attrs User)
    : Result (Attrs User) :=
  '(ret, errors) ← to_internal_fields S partial (writable_fields S) data ∅ [];
  match errors with
  | [] => Ok ret
  | _ => Raise (ValidationError (DetailDict errors))
  end.

(** Modelled from the spec: [Serializer.run_validation] of the host
    framework is not part of the repository: "validate(input) → attrs |
    error".  The fields are validated first, then the validators of the
    class and its [validate] method; a validation error of these two is
    normalised by [as_serializer_error]. *)
Definition run_validation (S : Serializer User) (partial : bool) (data : Attrs User)
    : Result (Attrs User) :=
  value ← to_internal_value S partial data;
  match (_ ← run_validators (ser_validators S) value; ser_validate S value) with
  | Raise (ValidationError d) => Raise (ValidationError (as_serializer_error d))
  | r => r
  end.
End Validation.

(** ** class UserSerializer(serializers.ModelSerializer) *)

Module UserSerializer.
Section UserSerializer.
Context {User Store : Type} `{!EqDecision User}.
Context `{!IdentityStore User Store, !PasswordPolicy User, !Host User}.

(** The declared fields.  [SerializerMethodField] is always read-only. *)
Definition password : Field User :=
  Field_init "password" false true (Some true) [validate_password].
Definition password2 : Field User :=
  Field_init "password2" false true (Some true) [].
Definition two_factor_enabled : Field User :=
  Field_init "two_factor_enabled" true false None [].
Definition backup_codes : Field User :=
  Field_init "backup_codes" true false None [].
Definition created_by : Field User :=
  Field_init "created_by" true false None [].
Definition permissions : Field User :=
  Field_init "permissions" true false None [].

Definition declared_fields : list (Field User) :=
  [password; password2; two_factor_enabled; backup_codes; created_by; permissions].

(** [Meta.fields] and [Meta.read_only_fields] *)
Definition Meta_fields : list string :=
  ["id"; "email"; "username"; "password"; "password2"; "first_name"; "last_name";
   "is_active"; "is_staff"; "is_superuser"; "date_joined"; "last_login";
   "two_factor_enabled"; "backup_codes"; "created_by"; "permissions"].

Definition Meta_read_only_fields : list string :=
  ["id"; "date_joined"; "last_login"].

(** [ModelSerializer.get_fields]: a declared field is taken as it is; any
    other name of [Meta.fields] gets the field built from the model, made
    read-only when [Meta.read_only_fields] lists it. *)
Definition get_field (name : string) : Field User :=
  match list_find (λ field, field_name field = name) declared_fields with
  | Some (_, field) => field
  | None =>
      let field := build_field name in
      {| field_name := name;
         read_only := if decide (name ∈ Meta_read_only_fields) then true
                      else read_only field;
         write_only := write_only field;
         required := if decide (name ∈ Meta_read_only_fields) then false
                     else required field;
         allow_null := allow_null field;
         validators := if decide (name ∈ Meta_read_only_fields) then []
                       else validators field |}
  end.

Definition get_fields : list (Field User) := get_field <$> Meta_fields.

Definition get_permissions (db : Store) (obj : User) : list string :=
  if is_superuser obj then ["*"]
  else
    let user_permissions : gset string :=
      list_to_set (codename <$> user_permissions db obj) in
    let user_permissions :=
      foldl (λ user_permissions user_role,
               let role_permissions :=
                 code <$> Models.permissions (role user_role) in
               user_permissions ∪ list_to_set role_permissions)
            user_permissions
            (filter (λ user_role, is_active user_role = true) (user_roles db obj)) in
    elements user_permissions.

Definition validate (attrs : Attrs User) : Result (Attrs User) :=
  if contains "password" attrs && contains "password2" attrs then
    password ← getitem attrs "password";
    password2 ← getitem attrs "password2";
    if decide (password ≠ password2) then
      Raise (ValidationError_dict "password" "Password fields didn't match.")
    else Ok attrs
  else Ok attrs.

Definition create (context : Context User) (validated_data : Attrs User)
    : M Store User :=
  (popped ←ₘ M_lift (pop "password2" validated_data);
   let validated_data := popped.2 in
   let validated_data := <["created_by" := VUser (request_user context)]> validated_data in
   user ←ₘ create_user validated_data;
   M_ret user)%M.

Definition update (instance : User) (validated_data : Attrs User) : M Store User :=
  (state ←ₘ
     (if contains "password" validated_data then
        popped ←ₘ M_lift (pop "password" validated_data);
        M_ret (set_password instance popped.1, popped.2)
      else M_ret (instance, validated_data));
   let instance := state.1 in
   let validated_data := state.2 in
   state ←ₘ
     (if contains "password2" validated_data then
        popped ←ₘ M_lift (pop "password2" validated_data);
        M_ret popped.2
      else M_ret validated_data);
   let validated_data := state in
   ModelSerializer_update instance validated_data)%M.

(** The class as the validation pass sees it: it defines no
    [validate_<field_name>] method. *)
Definition serializer : Serializer User :=
  {| ser_fields := get_fields;
     ser_validate_method := λ _, None;
     ser_validators := model_validators;
     ser_validate := validate |}.
End UserSerializer.
End UserSerializer.

(** ** class ChangePasswordSerializer(serializers.Serializer) *)

Module ChangePasswordSerializer.
Section ChangePasswordSerializer.
Context {User Store : Type} `{!EqDecision User}.
Context `{!IdentityStore User Store, !PasswordPolicy User}.

Definition current_password : Field User :=
  Field_init "current_password" false false (Some true) [].
Definition new_password : Field User :=
  Field_init "new_password" false false (Some true) [validate_password].
Definition confirm_password : Field User :=
  Field_init "confirm_password" false false (Some true) [].

Definition validate_current_password (context : Context User) (value : Value User)
    : Result (Value User) :=
  let user := request_user context in
  if negb (check_password user value) then
    Raise (ValidationError_str "Current password is incorrect.")
  else Ok value.

Definition validate (attrs : Attrs User) : Result (Attrs User) :=
  new_password ← getitem attrs "new_password";
  confirm_password ← getitem attrs "confirm_password";
  if decide (new_password ≠ confirm_password) then
    Raise (ValidationError_dict "confirm_password" "New password fields didn't match.")
  else Ok attrs.

(** The class as the validation pass sees it: its only
    [validate_<field_name>] method is [validate_current_password]. *)
Definition serializer (context : Context User) : Serializer User :=
  {| ser_fields := [current_password; new_password; confirm_password];
     ser_validate_method := λ name,
       if decide (name = "current_password")
       then Some (validate_current_password context) else None;
     ser_validators := [];
     ser_validate := validate |}.
End ChangePasswordSerializer.
End ChangePasswordSerializer.

(** ** A small identity store to run the serializers on *)

Module Demo.
Record DemoUser : Type := {
  username : string;
  superuser : bool;
  direct : list Permission;
  assignments : list UserRole;
  password_hash : option string;
  creator : option string;
}.

#[global] Instance DemoUser_eq_dec : EqDecision DemoUser.
Proof. solve_decision. Defined.

Definition make_password (raw : string) : string := "hashed$" ++ raw.

Definition str_or {User} (fallback : string) (v : option (Value User)) : string :=
  match v with
  | Some (VStr s) => s
  | _ => fallback
  end.

Definition bool_or {User} (fallback : bool) (v : option (Value User)) : bool :=
  match v with
  | Some (VBool b) => b
  | _ => fallback
  end.

(** The database is the list of the rows saved so far. *)
#[global] Instance demo_store : IdentityStore DemoUser (list DemoUser) := {|
  is_superuser := superuser;
  user_permissions := λ _ obj, direct obj;
  user_roles := λ _ obj, assignments obj;
  set_password := λ instance raw,
    {| username := username instance;
       superuser := superuser instance;
       direct := direct instance;
       assignments := assignments instance;
       password_hash := match raw with
                        | VStr s => Some (make_password s)
                        | _ => None
                        end;
       creator := creator instance |};
  check_password := λ user raw,
    match raw with
    | VStr s => bool_decide (password_hash user = Some (make_password s))
    | _ => false
    end;
  create_user := λ kwargs db,
    let user :=
      {| username := str_or "" (kwargs !! "username");
         superuser := bool_or false (kwargs !! "is_superuser");
         direct := [];
         assignments := [];
         password_hash := match kwargs !! "password" with
                          | Some (VStr s) => Some (make_password s)
                          | _ => None
                          end;
         creator := match kwargs !! "created_by" with
                    | Some (VUser u) => Some (username u)
                    | _ => None
                    end |} in
    (Ok user, (db ++ [user])%list);
  ModelSerializer_update := λ instance validated_data db,
    let user :=
      {| username := str_or (username instance) (validated_data !! "username");
         superuser := bool_or (superuser instance) (validated_data !! "is_superuser");
         direct := direct instance;
         assignments := assignments instance;
         password_hash := match validated_data !! "password" with
                          | Some (VStr s) => Some s
                          | Some _ => None
                          | None => password_hash instance
                          end;
         creator := creator instance |} in
    (Ok user, (db ++ [user])%list);
|}.

(** A policy that wants eight characters. *)
#[global] Instance demo_policy : PasswordPolicy DemoUser := {|
  validate_password := λ v,
    match v with
    | VStr s =>
        if decide (String.length s < 8)
        then Some ["This password is too short."] else None
    | _ => Some ["Not a string."]
    end;
|}.

(** Fields keep the payload value; the model brings optional fields and no
    validator. *)
#[global] Instance demo_host : Host DemoUser := {|
  Field_to_internal_value := λ _ data, inr data;
  build_field := λ name, Field_init name false false (Some false) [];
  model_validators := [];
|}.

Definition alice : DemoUser :=
  {| username := "alice"; superuser := false;
     direct := [ {| codename := "view_x" |} ];
     assignments :=
       [ {| role := {| permissions := [ {| code := "edit_y" |} ] |}; is_active := true |};
         {| role := {| permissions := [ {| code := "delete_z" |}; {| code := "view_x" |} ] |};
            is_active := false |} ];
     password_hash := Some (make_password "correct horse");
     creator := None |}.

Definition root : DemoUser :=
  {| username := "root"; superuser := true;
     direct := [ {| codename := "view_x" |} ];
     assignments := assignments alice;
     password_hash := None;
     creator := None |}.

Definition payload : Attrs DemoUser :=
  {[ "username" := VStr "bob";
     "password" := VStr "s3cret-pass";
     "password2" := VStr "s3cret-pass";
     "id" := VStr "7";
     "created_by" := VUser root;
     "permissions" := VStr "*" ]}.

(** What the validation keeps of [payload]. *)
Definition validated : Attrs DemoUser :=
  {[ "username" := VStr "bob";
     "password" := VStr "s3cret-pass";
     "password2" := VStr "s3cret-pass" ]}.

Definition mismatched : Attrs DemoUser :=
  {[ "username" := VStr "bob";
     "password" := VStr "s3cret-pass";
     "password2" := VStr "s3cret-typo" ]}.

Definition as_root : Context DemoUser := {| request_user := root |}.
Definition as_alice : Context DemoUser := {| request_user := alice |}.

Definition change_request (current new confirm : string) : Attrs DemoUser :=
  {[ "current_password" := VStr current;
     "new_password" := VStr new;
     "confirm_password" := VStr confirm ]}.

(** A user without any permission, and one whose only code is the
    wildcard. *)
Definition nobody : DemoUser :=
  {| username := "nobody"; superuser := false; direct := [];
     assignments := [ {| role := {| permissions := [] |}; is_active := true |};
                      {| role := {| permissions := [ {| code := "edit_y" |} ] |};
                         is_active := false |} ];
     password_hash := None; creator := None |}.

Definition star : DemoUser :=
  {| username := "star"; superuser := false;
     direct := [ {| codename := "*" |} ];
     assignments := [ {| role := {| permissions := [ {| code := "*" |} ] |};
                         is_active := true |} ];
     password_hash := None; creator := None |}.

(** [alice] with one more direct permission and one more active role. *)
Definition carol : DemoUser :=
  {| username := "carol"; superuser := false;
     direct := {| codename := "add_w" |} :: direct alice;
     assignments :=
       {| role := {| permissions := [ {| code := "delete_z" |} ] |}; is_active := true |}
       :: assignments alice;
     password_hash := None; creator := None |}.
End Demo.

(** ** The effective permission set, as the specification words it *)

Section EffectivePermissions.
Context {User Store : Type} `{!IdentityStore User Store}.

(** "permissions directly granted to the user" *)
Definition direct_codes (db : Store) (user : User) : list string :=
  codename <$> user_permissions db user.

(** "permissions granted via every active role assignment" *)
Definition active_role_codes (db : Store) (user : User) : list string :=
  user_role ← filter (λ user_role, is_active user_role = true) (user_roles db user);
  code <$> permissions (role user_role).

(** "the exact union (duplicates removed) of direct permission codes and
    codes from active role assignments" *)
Definition effective_permissions (db : Store) (user : User) : list string :=
  remove_dups (direct_codes db user ++ active_role_codes db user)%list.
End EffectivePermissions.

(** The names that are never read from a payload. *)
Definition never_input : list string :=
  ["id"; "date_joined"; "last_login"; "two_factor_enabled"; "backup_codes";
   "created_by"; "permissions"].

(** * Properties *)

(** ** Dictionaries and sets *)

Lemma contains_true {V} (key : string) (d : gmap string V) :
  contains key d = true ↔ is_Some (d !! key).
Proof. unfold contains. apply bool_decide_eq_true. Qed.

Lemma contains_false {V} (key : string) (d : gmap string V) :
  contains key d = false ↔ d !! key = None.
Proof.
  unfold contains. rewrite bool_decide_eq_false. symmetry. apply eq_None_not_Some.
Qed.

Lemma contains_Some {V} (key : string) (d : gmap string V) v :
  d !! key = Some v → contains key d = true.
Proof. intros Hv. apply contains_true. by exists v. Qed.

Lemma getitem_Some {V} (d : gmap string V) key v :
  d !! key = Some v → getitem d key = Ok v.
Proof. intros Hv. unfold getitem. by rewrite Hv. Qed.

Lemma getitem_None {V} (d : gmap string V) key :
  d !! key = None → getitem d key = Raise (KeyError key).
Proof. intros Hv. unfold getitem. by rewrite Hv. Qed.

Lemma pop_Some {V} (d : gmap string V) key v :
  d !! key = Some v → pop key d = Ok (v, delete key d).
Proof. intros Hv. unfold pop. by rewrite Hv. Qed.

Lemma pop_None {V} (d : gmap string V) key :
  d !! key = None → pop key d = Raise (KeyError key).
Proof. intros Hv. unfold pop. by rewrite Hv. Qed.

(** A loop of [set.update] calls collects what every round adds. *)
Lemma elem_of_foldl_update {B} (f : B → gset string) (l : list B) (acc : gset string) x :
  x ∈ foldl (λ acc b, acc ∪ f b) acc l ↔ x ∈ acc ∨ ∃ b, b ∈ l ∧ x ∈ f b.
Proof.
  revert acc. induction l as [|b l IH]; intros acc; simpl.
  - split; [by left|]. intros [?|(b & Hb & _)]; [done|]. by apply elem_of_nil in Hb.
  - rewrite IH, elem_of_union. split.
    + intros [[?|?]|(b' & Hb' & ?)]; [by left|right; exists b|right; exists b'].
      * split; [apply list_elem_of_here|done].
      * split; [by apply list_elem_of_further|done].
    + intros [?|(b' & Hb' & ?)]; [by left; left|].
      apply elem_of_cons in Hb' as [->|Hb']; [by left; right|].
      right. by exists b'.
Qed.

(** ** UserSerializer.get_permissions *)

Section GetPermissions.
Context {User Store : Type} `{!EqDecision User, !IdentityStore User Store}.
Implicit Types (db : Store) (obj : User) (c : string).

(** What the accumulated set holds for a user who is not a superuser. *)
Lemma elem_of_get_permissions db obj c :
  is_superuser obj = false →
  c ∈ UserSerializer.get_permissions db obj ↔
    (∃ p, p ∈ user_permissions db obj ∧ codename p = c) ∨
    (∃ user_role, user_role ∈ user_roles db obj ∧ is_active user_role = true ∧
       ∃ p, p ∈ permissions (role user_role) ∧ code p = c).
Proof.
  intros Hsu. unfold UserSerializer.get_permissions. rewrite Hsu.
  rewrite elem_of_elements, elem_of_foldl_update, elem_of_list_to_set, list_elem_of_fmap.
  split.
  - intros [(p & -> & Hp)|(ur & Hur & Hc)]; [left; by exists p|right].
    apply list_elem_of_filter in Hur as [Hact Hur].
    apply elem_of_list_to_set, list_elem_of_fmap in Hc as (p & -> & Hp).
    exists ur. repeat split; [done..|]. by exists p.
  - intros [(p & Hp & <-)|(ur & Hur & Hact & p & Hp & <-)]; [left; by exists p|right].
    exists ur. split; [by apply list_elem_of_filter|].
    apply elem_of_list_to_set, list_elem_of_fmap. by exists p.
Qed.

Lemma NoDup_get_permissions db obj :
  is_superuser obj = false → NoDup (UserSerializer.get_permissions db obj).
Proof.
  intros Hsu. unfold UserSerializer.get_permissions. rewrite Hsu. apply NoDup_elements.
Qed.

Lemma elem_of_effective_permissions db obj c :
  c ∈ effective_permissions db obj ↔
    (∃ p, p ∈ user_permissions db obj ∧ codename p = c) ∨
    (∃ user_role, user_role ∈ user_roles db obj ∧ is_active user_role = true ∧
       ∃ p, p ∈ permissions (role user_role) ∧ code p = c).
Proof.
  unfold effective_permissions, direct_codes, active_role_codes.
  rewrite elem_of_remove_dups, elem_of_app, list_elem_of_fmap, list_elem_of_bind.
  split.
  - intros [(p & -> & Hp)|(ur & Hc & Hur)]; [left; by exists p|right].
    apply list_elem_of_filter in Hur as [Hact Hur].
    apply list_elem_of_fmap in Hc as (p & -> & Hp).
    exists ur. repeat split; [done..|]. by exists p.
  - intros [(p & Hp & <-)|(ur & Hur & Hact & p & Hp & <-)]; [left; by exists p|right].
    exists ur. split; [|by apply list_elem_of_filter].
    apply list_elem_of_fmap. by exists p.
Qed.

(** C2: for a user who is not a superuser, [get_permissions] returns a list
    without duplicates whose members are exactly the codes of the user's
    direct permissions and the codes of the permissions of the roles of
    the user's active role assignments; a code that only inactive
    assignments carry is not returned; up to the order of the list it is
    the union the specification describes. *)
Theorem get_permissions_union db obj :
  is_superuser obj = false →
  NoDup (UserSerializer.get_permissions db obj) ∧
  (∀ c, c ∈ UserSerializer.get_permissions db obj ↔
     (∃ p, p ∈ user_permissions db obj ∧ codename p = c) ∨
     (∃ user_role, user_role ∈ user_roles db obj ∧ is_active user_role = true ∧
        ∃ p, p ∈ permissions (role user_role) ∧ code p = c)) ∧
  (∀ c, c ∉ codename <$> user_permissions db obj →
     (∀ user_role p, user_role ∈ user_roles db obj → p ∈ permissions (role user_role) →
        code p = c → is_active user_role = false) →
     c ∉ UserSerializer.get_permissions db obj) ∧
  UserSerializer.get_permissions db obj ≡ₚ effective_permissions db obj.
Proof.
  intros Hsu. split; [by apply NoDup_get_permissions|].
  split; [intros c; by apply elem_of_get_permissions|]. split.
  - intros c Hdirect Hinactive Hc.
    apply (elem_of_get_permissions db obj c Hsu) in Hc
      as [(p & Hp & <-)|(ur & Hur & Hact & p & Hp & Hpc)].
    + apply Hdirect, list_elem_of_fmap. by exists p.
    + rewrite (Hinactive ur p Hur Hp Hpc) in Hact. discriminate.
  - apply NoDup_Permutation.
    + by apply NoDup_get_permissions.
    + apply NoDup_remove_dups.
    + intros c. by rewrite elem_of_get_permissions, elem_of_effective_permissions.
Qed.

(** C3: for a superuser, [get_permissions] returns the one-element list
    ["*"], whatever the user's direct permissions and role assignments
    are. *)
Theorem get_permissions_superuser db obj :
  is_superuser obj = true → UserSerializer.get_permissions db obj = ["*"].
Proof. intros Hsu. unfold UserSerializer.get_permissions. by rewrite Hsu. Qed.
End GetPermissions.

(** ** The cross-field checks *)

(** Decide the membership tests and the lookups of a [validate] body from the
    lookups in the context. *)
Ltac run_lookups :=
  repeat match goal with
    | H : ?d !! ?k = Some _ |- context [contains ?k ?d] =>
        rewrite (contains_Some k d _ H)
    | H : ?d !! ?k = None |- context [contains ?k ?d] =>
        rewrite (proj2 (contains_false k d) H)
    | H : ?d !! ?k = Some _ |- context [getitem ?d ?k] =>
        rewrite (getitem_Some d k _ H)
    | H : ?d !! ?k = None |- context [getitem ?d ?k] =>
        rewrite (getitem_None d k H)
    | H : ?d !! ?k = Some _ |- context [pop ?k ?d] =>
        rewrite (pop_Some d k _ H)
    | H : ?d !! ?k = None |- context [pop ?k ?d] =>
        rewrite (pop_None d k H)
    end; simpl.

Section UserSerializerValidate.
Context {User : Type} `{!EqDecision User}.
Implicit Types (attrs : Attrs User) (p : Value User).

Lemma UserSerializer_validate_differ attrs p p2 :
  attrs !! "password" = Some p → attrs !! "password2" = Some p2 → p ≠ p2 →
  UserSerializer.validate attrs =
    Raise (ValidationError (DetailDict
             [("password", ErrorDetail "Password fields didn't match.")])).
Proof.
  intros Hp Hp2 Hne. unfold UserSerializer.validate. run_lookups.
  by rewrite decide_True.
Qed.

Lemma UserSerializer_validate_equal attrs p :
  attrs !! "password" = Some p → attrs !! "password2" = Some p →
  UserSerializer.validate attrs = Ok attrs.
Proof.
  intros Hp Hp2. unfold UserSerializer.validate. run_lookups.
  rewrite decide_False; [done|]. by intros [].
Qed.

Lemma UserSerializer_validate_absent attrs :
  attrs !! "password" = None ∨ attrs !! "password2" = None →
  UserSerializer.validate attrs = Ok attrs.
Proof.
  intros [Hp|Hp2]; unfold UserSerializer.validate; run_lookups; [done|].
  by rewrite andb_false_r.
Qed.

(** When [validate] returns, it returns its argument. *)
Lemma UserSerializer_validate_Ok attrs attrs' :
  UserSerializer.validate attrs = Ok attrs' → attrs' = attrs.
Proof.
  unfold UserSerializer.validate.
  destruct (contains "password" attrs && contains "password2" attrs); [|congruence].
  destruct (getitem attrs "password") as [p|]; [simpl|discriminate].
  destruct (getitem attrs "password2") as [p2|]; [simpl|discriminate].
  case_decide; congruence.
Qed.

(** C1: when [attrs] holds both [password] and [password2] and the two
    values differ, [UserSerializer.validate] raises the validation error
    whose detail files "Password fields didn't match." under the field
    [password]; when the two values are equal, or when one of the two keys
    is missing, it returns [attrs]. *)
Theorem UserSerializer_validate_passwords attrs :
  (∀ p p2, attrs !! "password" = Some p → attrs !! "password2" = Some p2 → p ≠ p2 →
     UserSerializer.validate attrs =
       Raise (ValidationError (DetailDict
                [("password", ErrorDetail "Password fields didn't match.")]))) ∧
  (∀ p, attrs !! "password" = Some p → attrs !! "password2" = Some p →
     UserSerializer.validate attrs = Ok attrs) ∧
  (attrs !! "password" = None ∨ attrs !! "password2" = None →
     UserSerializer.validate attrs = Ok attrs).
Proof.
  split; [|split].
  - apply UserSerializer_validate_differ.
  - apply UserSerializer_validate_equal.
  - apply UserSerializer_validate_absent.
Qed.
End UserSerializerValidate.

Section ChangePasswordValidate.
Context {User : Type} `{!EqDecision User}.
Implicit Types (attrs : Attrs User) (n c : Value User).

Lemma ChangePassword_validate_differ attrs n c :
  attrs !! "new_password" = Some n → attrs !! "confirm_password" = Some c → n ≠ c →
  ChangePasswordSerializer.validate attrs =
    Raise (ValidationError (DetailDict
             [("confirm_password", ErrorDetail "New password fields didn't match.")])).
Proof.
  intros Hn Hc Hne. unfold ChangePasswordSerializer.validate. run_lookups.
  by rewrite decide_True.
Qed.

Lemma ChangePassword_validate_equal attrs n :
  attrs !! "new_password" = Some n → attrs !! "confirm_password" = Some n →
  ChangePasswordSerializer.validate attrs = Ok attrs.
Proof.
  intros Hn Hc. unfold ChangePasswordSerializer.validate. run_lookups.
  rewrite decide_False; [done|]. by intros [].
Qed.

Lemma ChangePassword_validate_no_new attrs :
  attrs !! "new_password" = None →
  ChangePasswordSerializer.validate attrs = Raise (KeyError "new_password").
Proof. intros Hn. unfold ChangePasswordSerializer.validate. by run_lookups. Qed.

Lemma ChangePassword_validate_no_confirm attrs :
  is_Some (attrs !! "new_password") → attrs !! "confirm_password" = None →
  ChangePasswordSerializer.validate attrs = Raise (KeyError "confirm_password").
Proof.
  intros [n Hn] Hc. unfold ChangePasswordSerializer.validate. by run_lookups.
Qed.
End ChangePasswordValidate.

(** ** The validation pass *)

Section ValidationFacts.
Context {User : Type} `{!Host User}.
Implicit Types (S : Serializer User) (field : Field User) (data ret : Attrs User).
Implicit Types (errors : list (string * detail)).

Lemma run_validators_nil {A} (x : A) : run_validators [] x = Ok ().
Proof. reflexivity. Qed.

Lemma run_validators_raises {A} (vs : list (A → option (list string))) x e :
  run_validators vs x = Raise e → ∃ d, e = ValidationError d.
Proof.
  unfold run_validators. destruct (mjoin _); [discriminate|].
  intros [= <-]. eauto.
Qed.

Lemma run_validators_accept {A} (v : A → option (list string)) x :
  v x = None → run_validators [v] x = Ok ().
Proof. intros Hv. unfold run_validators. simpl. by rewrite Hv. Qed.

(** A field's own validation raises nothing but validation errors. *)
Lemma Field_run_validation_raises partial field d e :
  Field_run_validation partial field d = Raise e → ∃ d', e = ValidationError d'.
Proof.
  unfold Field_run_validation, ValidationError_str.
  destruct d as [v|].
  - destruct v; try (destruct (allow_null field); [discriminate|intros [= <-]; eauto]);
      (destruct (Field_to_internal_value field _) as [msgs|v'];
       [intros [= <-]; eauto|]);
      (destruct (run_validators (validators field) v') as [[]|e'] eqn:Hrun; simpl;
       [discriminate|]); intros [= <-]; by eapply run_validators_raises.
  - destruct partial; [discriminate|].
    destruct (required field); [intros [= <-]; eauto|discriminate].
Qed.

(** A payload entry is never skipped. *)
Lemma Field_run_validation_present partial field v r :
  Field_run_validation partial field (Some v) = Ok r → is_Some r.
Proof.
  unfold Field_run_validation.
  destruct v; try (destruct (allow_null field); [intros [= <-]; eauto|discriminate]);
    (destruct (Field_to_internal_value field _) as [msgs|v']; [discriminate|]);
    (destruct (run_validators (validators field) v') as [[]|e']; simpl;
     [intros [= <-]; eauto|discriminate]).
Qed.

(** Outside a partial update a required field is never skipped. *)
Lemma Field_run_validation_required field d r :
  required field = true → Field_run_validation false field d = Ok r → is_Some r.
Proof.
  intros Hreq. destruct d as [v|]; [apply Field_run_validation_present|].
  simpl. by rewrite Hreq.
Qed.

Lemma validate_field_Some S partial field data r :
  validate_field S partial field data = Ok r →
  ∃ r0, Field_run_validation partial field (data !! field_name field) = Ok r0 ∧
        (is_Some r0 ↔ is_Some r).
Proof.
  unfold validate_field.
  destruct (Field_run_validation _ _ _) as [r0|]; [simpl|discriminate].
  intros Hr. exists r0. split; [done|].
  destruct r0 as [v|]; [|by injection Hr as <-].
  destruct (ser_validate_method S (field_name field)) as [validate_method|];
    [|by injection Hr as <-].
  destruct (validate_method v); [|discriminate]. simpl in Hr. injection Hr as <-.
  split; eauto.
Qed.

Lemma validate_field_required S field data r :
  required field = true → validate_field S false field data = Ok r → is_Some r.
Proof.
  intros Hreq Hr. apply validate_field_Some in Hr as (r0 & Hr0 & Hiff).
  apply Hiff. by eapply Field_run_validation_required.
Qed.

(** Without a [validate_<field_name>] method, a field raises nothing but
    validation errors. *)
Lemma validate_field_raises S partial field data e :
  ser_validate_method S (field_name field) = None →
  validate_field S partial field data = Raise e → ∃ d, e = ValidationError d.
Proof.
  intros Hnone. unfold validate_field. rewrite Hnone.
  destruct (Field_run_validation _ _ _) as [r0|e'] eqn:Hrun; simpl.
  - by destruct r0.
  - intros [= <-]. by eapply Field_run_validation_raises.
Qed.

Lemma setitem_not_nil key d errors : setitem key d errors ≠ [].
Proof. destruct errors as [|[k d'] errors]; simpl; [done|]. by case_decide. Qed.

Lemma setitem_head key d k0 d0 errors :
  k0 ≠ key → setitem key d ((k0, d0) :: errors) = (k0, d0) :: setitem key d errors.
Proof. intros Hne. simpl. by rewrite decide_False. Qed.

(** The loop writes under the names of the fields it visits only. *)
Lemma to_internal_fields_keys S partial fields data ret errors ret' errors' k :
  to_internal_fields S partial fields data ret errors = Ok (ret', errors') →
  is_Some (ret' !! k) → is_Some (ret !! k) ∨ k ∈ field_name <$> fields.
Proof.
  revert ret errors. induction fields as [|field fields IH]; intros ret errors; simpl.
  - intros [= <- <-]. by left.
  - destruct (validate_field S partial field data) as [[v|]|[d|key]]; [| | |discriminate];
      intros Hloop Hk; destruct (IH _ _ Hloop Hk) as [Hret|Hin];
      try (right; by apply list_elem_of_further);
      try (by left).
    destruct (decide (field_name field = k)) as [<-|Hne].
    + right. apply list_elem_of_here.
    + left. by rewrite lookup_insert_ne in Hret.
Qed.

(** What the loop has written stays. *)
Lemma to_internal_fields_mono S partial fields data ret errors ret' errors' k :
  to_internal_fields S partial fields data ret errors = Ok (ret', errors') →
  is_Some (ret !! k) → is_Some (ret' !! k).
Proof.
  revert ret errors. induction fields as [|field fields IH]; intros ret errors; simpl.
  - by intros [= <- <-].
  - destruct (validate_field S partial field data) as [[v|]|[d|key]]; [| | |discriminate];
      intros Hloop Hk; apply (IH _ _ Hloop); [|done..].
    destruct (decide (field_name field = k)) as [<-|Hne].
    + rewrite lookup_insert_eq. eauto.
    + by rewrite lookup_insert_ne.
Qed.

(** Errors are never taken back. *)
Lemma to_internal_fields_no_errors S partial fields data ret errors ret' :
  to_internal_fields S partial fields data ret errors = Ok (ret', []) → errors = [].
Proof.
  revert ret errors. induction fields as [|field fields IH]; intros ret errors; simpl.
  - by intros [= <- <-].
  - destruct (validate_field S partial field data) as [[v|]|[d|key]]; [| | |discriminate];
      intros Hloop; specialize (IH _ _ Hloop); [done..|].
    by apply setitem_not_nil in IH.
Qed.

(** Outside a partial update, a pass without errors has written every
    required field it visited. *)
Lemma to_internal_fields_required S fields data ret errors ret' field :
  to_internal_fields S false fields data ret errors = Ok (ret', []) →
  field ∈ fields → required field = true → is_Some (ret' !! field_name field).
Proof.
  revert ret errors. induction fields as [|f fields IH]; intros ret errors; simpl.
  - intros _ Hin. by apply elem_of_nil in Hin.
  - intros Hloop Hin Hreq. apply elem_of_cons in Hin as [->|Hin].
    + destruct (validate_field S false f data) as [[v|]|[d|key]] eqn:Hf;
        [| | |discriminate].
      * eapply to_internal_fields_mono; [done|]. rewrite lookup_insert_eq. eauto.
      * apply validate_field_required in Hf as [? [=]]; done.
      * apply to_internal_fields_no_errors in Hloop. by apply setitem_not_nil in Hloop.
    + destruct (validate_field S false f data) as [[v|]|[d|key]]; [| | |discriminate];
        by eapply IH.
Qed.

(** An error filed before fields without a [validate_<field_name>] method
    are visited is still the first one at the end. *)
Lemma to_internal_fields_first_error S partial fields data ret k d errors :
  k ∉ field_name <$> fields →
  (∀ field, field ∈ fields → ser_validate_method S (field_name field) = None) →
  ∃ ret' rest,
    to_internal_fields S partial fields data ret ((k, d) :: errors)
    = Ok (ret', (k, d) :: rest).
Proof.
  revert ret errors. induction fields as [|field fields IH]; intros ret errors Hk Hnone;
    cbn [to_internal_fields].
  - eauto.
  - assert (k ≠ field_name field) as Hne.
    { intros ->. apply Hk, list_elem_of_here. }
    assert (k ∉ field_name <$> fields) as Hk'.
    { intros Hin. by apply Hk, list_elem_of_further. }
    assert (∀ f, f ∈ fields → ser_validate_method S (field_name f) = None) as Hnone'.
    { intros f Hf. by apply Hnone, list_elem_of_further. }
    destruct (validate_field S partial field data) as [[v|]|e] eqn:Hf; [by apply IH..|].
    apply validate_field_raises in Hf as [d' ->]; [|apply Hnone, list_elem_of_here].
    cbv beta iota. rewrite setitem_head by done. by apply IH.
Qed.

(** When the first writable field fails and no later one has a
    [validate_<field_name>] method, the pass raises a dictionary of errors
    that starts with the error of the first field. *)
Lemma to_internal_value_first_error S partial data field fields d :
  writable_fields S = field :: fields →
  validate_field S partial field data = Raise (ValidationError d) →
  field_name field ∉ field_name <$> fields →
  (∀ f, f ∈ fields → ser_validate_method S (field_name f) = None) →
  ∃ rest,
    to_internal_value S partial data =
      Raise (ValidationError (DetailDict ((field_name field, d) :: rest))).
Proof.
  intros Hfields Hfield Hname Hnone. unfold to_internal_value.
  rewrite Hfields. cbn [to_internal_fields]. rewrite Hfield. cbn [setitem].
  destruct (to_internal_fields_first_error S partial fields data ∅
              (field_name field) d [] Hname Hnone) as (ret' & rest & ->).
  by exists rest.
Qed.

(** The validated attributes have names of writable fields only. *)
Lemma to_internal_value_keys S partial data attrs k :
  to_internal_value S partial data = Ok attrs → is_Some (attrs !! k) →
  ∃ field, field ∈ ser_fields S ∧ read_only field = false ∧ field_name field = k.
Proof.
  unfold to_internal_value.
  destruct (to_internal_fields _ _ _ _ _ _) as [[ret errors]|] eqn:Hloop;
    [simpl|discriminate].
  destruct errors; [|discriminate]. intros [= <-] Hk.
  destruct (to_internal_fields_keys _ _ _ _ _ _ _ _ _ Hloop Hk) as [Hempty|Hin].
  - rewrite lookup_empty in Hempty. by destruct Hempty.
  - apply list_elem_of_fmap in Hin as (field & -> & Hin).
    apply list_elem_of_filter in Hin as [Hro Hin]. by exists field.
Qed.

(** Outside a partial update, the validated attributes hold every
    required writable field. *)
Lemma to_internal_value_required S data attrs field :
  to_internal_value S false data = Ok attrs →
  field ∈ ser_fields S → read_only field = false → required field = true →
  is_Some (attrs !! field_name field).
Proof.
  unfold to_internal_value.
  destruct (to_internal_fields _ _ _ _ _ _) as [[ret errors]|] eqn:Hloop;
    [simpl|discriminate].
  destruct errors; [|discriminate]. intros [= <-] Hin Hro Hreq.
  eapply to_internal_fields_required; [done| |done].
  by apply list_elem_of_filter.
Qed.
End ValidationFacts.

(** ** UserSerializer: create, update and the fields that are never read *)

Section UserSerializerFacts.
Context {User Store : Type} `{!EqDecision User}.
Context `{!IdentityStore User Store, !PasswordPolicy User, !Host User}.
Implicit Types (validated_data attrs data : Attrs User) (instance : User) (db : Store).
Implicit Types (context : Context User).

Lemma M_bind_ret {A} (m : M Store A) db : M_bind m M_ret db = m db.
Proof. unfold M_bind, M_ret. by destruct (m db) as [[a|e] db']. Qed.

(** [create] on a dictionary that holds [password2]. *)
Lemma create_eq context validated_data p2 db :
  validated_data !! "password2" = Some p2 →
  UserSerializer.create context validated_data db =
    create_user (<["created_by" := VUser (request_user context)]>
                   (delete "password2" validated_data)) db.
Proof.
  intros Hp2. unfold UserSerializer.create, M_bind at 1, M_lift. run_lookups.
  apply M_bind_ret.
Qed.

(** [update] in one equation: the generic update receives the dictionary
    without [password] and [password2], and an instance that went through
    [set_password] when [password] was there. *)
Lemma update_eq instance validated_data db :
  UserSerializer.update instance validated_data db =
    ModelSerializer_update
      (match validated_data !! "password" with
       | Some password => set_password instance password
       | None => instance
       end)
      (delete "password2" (delete "password" validated_data)) db.
Proof.
  unfold UserSerializer.update, M_bind, M_lift, M_ret.
  destruct (validated_data !! "password") as [pw|] eqn:Hpw; run_lookups.
  - destruct (delete "password" validated_data !! "password2") as [p2|] eqn:Hp2;
      run_lookups; [done|]. by rewrite (delete_id _ _ Hp2).
  - rewrite (delete_id _ _ Hpw).
    destruct (validated_data !! "password2") as [p2|] eqn:Hp2; run_lookups; [done|].
    by rewrite (delete_id _ _ Hp2).
Qed.

(** C5: [create] on validated attributes, which hold the required
    [password2], calls [create_user] once and returns what it returns; the
    keyword arguments of the call are the attributes without [password2]
    and with [created_by] set to the requesting user, every other
    attribute unchanged. *)
Theorem create_delegates context validated_data p2 db :
  validated_data !! "password2" = Some p2 →
  ∃ kwargs : Attrs User,
    UserSerializer.create context validated_data db = create_user kwargs db ∧
    kwargs !! "password2" = None ∧
    kwargs !! "created_by" = Some (VUser (request_user context)) ∧
    (∀ k, k ≠ "password2" → k ≠ "created_by" → kwargs !! k = validated_data !! k) ∧
    kwargs = <["created_by" := VUser (request_user context)]>
               (delete "password2" validated_data).
Proof.
  intros Hp2. eexists. split; [by eapply create_eq|].
  split; [by rewrite lookup_insert_ne, lookup_delete_eq|].
  split; [by rewrite lookup_insert_eq|]. split; [|done].
  intros k Hk1 Hk2. by rewrite lookup_insert_ne, lookup_delete_ne.
Qed.

(** C4: [update] on attributes that hold [password] passes the instance
    through [set_password] with that value and then calls the generic
    update; the dictionary the generic update receives has neither
    [password] nor [password2], and holds every other attribute
    unchanged. *)
Theorem update_password instance validated_data password db :
  validated_data !! "password" = Some password →
  ∃ generic : Attrs User,
    UserSerializer.update instance validated_data db =
      ModelSerializer_update (set_password instance password) generic db ∧
    generic !! "password" = None ∧
    generic !! "password2" = None ∧
    (∀ k, k ≠ "password" → k ≠ "password2" → generic !! k = validated_data !! k) ∧
    generic = delete "password2" (delete "password" validated_data).
Proof.
  intros Hpw. eexists. split; [by rewrite update_eq, Hpw|].
  split; [by rewrite lookup_delete_ne, lookup_delete_eq|].
  split; [by rewrite lookup_delete_eq|]. split; [|done].
  intros k Hk1 Hk2. by rewrite !lookup_delete_ne.
Qed.

(** C6: when [password] equals [password2] and the policy accepts the
    value, the validators of the [password] field accept it and [validate]
    returns the attributes; the whole validation then returns them too,
    once the fields have been read into them and the validators of the
    model accept them. *)
Theorem validate_accepts attrs p :
  attrs !! "password" = Some p → attrs !! "password2" = Some p →
  validate_password p = None →
  run_validators (validators UserSerializer.password) p = Ok () ∧
  UserSerializer.validate attrs = Ok attrs ∧
  (∀ partial data,
     to_internal_value UserSerializer.serializer partial data = Ok attrs →
     run_validators model_validators attrs = Ok () →
     run_validation UserSerializer.serializer partial data = Ok attrs).
Proof.
  intros Hp Hp2 Hpolicy.
  assert (UserSerializer.validate attrs = Ok attrs) as Hvalidate
    by by eapply UserSerializer_validate_equal.
  split; [by apply run_validators_accept|]. split; [done|].
  intros partial data Hfields Hmodel. unfold run_validation. rewrite Hfields. simpl.
  rewrite Hmodel. simpl. by rewrite Hvalidate.
Qed.

Lemma get_field_name name : field_name (UserSerializer.get_field name) = name.
Proof.
  unfold UserSerializer.get_field.
  destruct (list_find _ _) as [[i field]|] eqn:Hfind; [|done].
  by apply list_find_Some in Hfind as (_ & ? & _).
Qed.

Lemma get_field_read_only name :
  name ∈ never_input → read_only (UserSerializer.get_field name) = true.
Proof.
  unfold never_input. rewrite !elem_of_cons, elem_of_nil.
  intros [->|[->|[->|[->|[->|[->|[->|[]]]]]]]]; reflexivity.
Qed.

(** No field that the validation pass reads has a name of [never_input]. *)
Lemma writable_not_never_input (field : Field User) :
  field ∈ ser_fields UserSerializer.serializer → read_only field = false →
  field_name field ∉ never_input.
Proof.
  simpl. unfold UserSerializer.get_fields. intros Hin Hro Hname.
  apply list_elem_of_fmap in Hin as (name & -> & _).
  rewrite get_field_name in Hname. apply get_field_read_only in Hname. congruence.
Qed.

Lemma run_validation_Ok partial data attrs :
  run_validation UserSerializer.serializer partial data = Ok attrs →
  to_internal_value UserSerializer.serializer partial data = Ok attrs.
Proof.
  unfold run_validation.
  destruct (to_internal_value _ _ _) as [value|]; [simpl|discriminate].
  destruct (run_validators _ _) as [[]|[]]; simpl; [|discriminate..].
  destruct (UserSerializer.validate value) as [attrs'|[]] eqn:Hvalidate;
    [|discriminate..].
  apply UserSerializer_validate_Ok in Hvalidate as ->. congruence.
Qed.

(** Outside a partial update the validated attributes hold [password2]. *)
Lemma run_validation_password2 data attrs :
  run_validation UserSerializer.serializer false data = Ok attrs →
  is_Some (attrs !! "password2").
Proof.
  intros Hrun. apply run_validation_Ok in Hrun.
  apply (to_internal_value_required _ _ _ UserSerializer.password2 Hrun); [|done..].
  simpl. unfold UserSerializer.get_fields. apply list_elem_of_fmap.
  exists "password2". split; [reflexivity|].
  unfold UserSerializer.Meta_fields. rewrite !elem_of_cons. tauto.
Qed.

(** C9: whatever the payload holds, the attributes that the validation
    returns have none of the names [id], [date_joined], [last_login],
    [two_factor_enabled], [backup_codes], [created_by] and [permissions];
    so the dictionary that [update] hands to the generic update has none
    of them, and the keyword arguments that [create] hands to
    [create_user] have none of them but [created_by], whose value is the
    requesting user. *)
Theorem read_only_never_input partial data attrs :
  run_validation UserSerializer.serializer partial data = Ok attrs →
  (∀ name, name ∈ never_input → attrs !! name = None) ∧
  (∀ instance db, ∃ instance' (generic : Attrs User),
     UserSerializer.update instance attrs db
     = ModelSerializer_update instance' generic db ∧
     ∀ name, name ∈ never_input → generic !! name = None) ∧
  (∀ context db, partial = false → ∃ kwargs : Attrs User,
     UserSerializer.create context attrs db = create_user kwargs db ∧
     kwargs !! "created_by" = Some (VUser (request_user context)) ∧
     ∀ name, name ∈ never_input → name ≠ "created_by" → kwargs !! name = None).
Proof.
  intros Hrun. pose proof (run_validation_Ok _ _ _ Hrun) as Hfields.
  assert (∀ name, name ∈ never_input → attrs !! name = None) as Hnever.
  { intros name Hname. apply eq_None_not_Some. intros Hsome.
    destruct (to_internal_value_keys _ _ _ _ _ Hfields Hsome)
      as (field & Hin & Hro & <-).
    by eapply writable_not_never_input. }
  split; [done|]. split.
  - intros instance db. eexists _, _. split; [apply update_eq|].
    intros name Hname. rewrite !lookup_delete. repeat case_decide; auto.
  - intros context db ->. destruct (run_validation_password2 _ _ Hrun) as [p2 Hp2].
    eexists. split; [by eapply create_eq|]. split; [by rewrite lookup_insert_eq|].
    intros name Hname Hne. rewrite lookup_insert_ne by done.
    rewrite lookup_delete. case_decide; auto.
Qed.
End UserSerializerFacts.

(** ** ChangePasswordSerializer *)

Section ChangePasswordFacts.
Context {User Store : Type} `{!EqDecision User}.
Context `{!IdentityStore User Store, !PasswordPolicy User, !Host User}.
Implicit Types (attrs data : Attrs User) (context : Context User) (v n c : Value User).

Let serializer := ChangePasswordSerializer.serializer (Store:=Store).

Lemma ChangePassword_writable_fields context :
  writable_fields (serializer context) =
    [ChangePasswordSerializer.current_password;
     ChangePasswordSerializer.new_password;
     ChangePasswordSerializer.confirm_password].
Proof. reflexivity. Qed.

Lemma validate_current_password_wrong context v :
  check_password (request_user context) v = false →
  ChangePasswordSerializer.validate_current_password context v =
    Raise (ValidationError (DetailList [ErrorDetail "Current password is incorrect."])).
Proof.
  intros Hcheck. unfold ChangePasswordSerializer.validate_current_password.
  by rewrite Hcheck.
Qed.

Lemma validate_current_password_right context v :
  check_password (request_user context) v = true →
  ChangePasswordSerializer.validate_current_password context v = Ok v.
Proof.
  intros Hcheck. unfold ChangePasswordSerializer.validate_current_password.
  by rewrite Hcheck.
Qed.

(** The field [current_password], when the payload holds a value that the
    field accepts and [check_password] refuses. *)
Lemma validate_field_current_password context partial data raw v :
  data !! "current_password" = Some raw → raw ≠ VNone →
  Field_to_internal_value ChangePasswordSerializer.current_password raw = inr v →
  check_password (request_user context) v = false →
  validate_field (serializer context) partial
    ChangePasswordSerializer.current_password data =
    Raise (ValidationError (DetailList [ErrorDetail "Current password is incorrect."])).
Proof.
  intros Hraw Hnone Hfield Hcheck. unfold validate_field. simpl.
  rewrite Hraw. unfold Field_run_validation.
  destruct raw; [done|rewrite Hfield..]; simpl;
    by rewrite validate_current_password_wrong.
Qed.

(** C7: [validate_current_password] raises the validation error with the
    message "Current password is incorrect." when [check_password] of the
    requesting user refuses the value, and returns the value when it
    accepts it; the validation pass then files that message under the
    field [current_password] and the validation fails with it. *)
Theorem current_password_checked context v :
  (check_password (request_user context) v = false →
     ChangePasswordSerializer.validate_current_password context v =
       Raise (ValidationError (DetailList [ErrorDetail "Current password is incorrect."])) ∧
     ∀ partial data raw,
       data !! "current_password" = Some raw → raw ≠ VNone →
       Field_to_internal_value ChangePasswordSerializer.current_password raw = inr v →
       ∃ rest,
         run_validation (serializer context) partial data =
           Raise (ValidationError (DetailDict
             (("current_password",
               DetailList [ErrorDetail "Current password is incorrect."]) :: rest)))) ∧
  (check_password (request_user context) v = true →
     ChangePasswordSerializer.validate_current_password context v = Ok v).
Proof.
  split; [|apply validate_current_password_right].
  intros Hcheck. split; [by apply validate_current_password_wrong|].
  intros partial data raw Hraw Hnone Hfield.
  destruct (to_internal_value_first_error (serializer context) partial data
              ChangePasswordSerializer.current_password
              [ChangePasswordSerializer.new_password;
               ChangePasswordSerializer.confirm_password]
              (DetailList [ErrorDetail "Current password is incorrect."]))
    as [rest Hrest].
  - apply ChangePassword_writable_fields.
  - by eapply validate_field_current_password.
  - simpl. rewrite !elem_of_cons, elem_of_nil. intros [|[|[]]]; discriminate.
  - intros field. rewrite !elem_of_cons, elem_of_nil. by intros [->|[->|[]]].
  - exists rest. unfold run_validation. by rewrite Hrest.
Qed.

(** C8: on attributes that hold [new_password] and [confirm_password],
    [validate] raises the validation error whose detail files "New
    password fields didn't match." under the field [confirm_password] when
    the two values differ, and the validation, once the fields have been
    read into these attributes, fails with that message in the list of the
    field; when the two values are equal, [validate] returns the
    attributes. *)
Theorem new_password_confirmed attrs n c :
  attrs !! "new_password" = Some n → attrs !! "confirm_password" = Some c →
  (n ≠ c →
     ChangePasswordSerializer.validate attrs =
       Raise (ValidationError (DetailDict
                [("confirm_password",
                  ErrorDetail "New password fields didn't match.")])) ∧
     ∀ context partial data,
       to_internal_value (serializer context) partial data = Ok attrs →
       run_validation (serializer context) partial data =
         Raise (ValidationError (DetailDict
                  [("confirm_password",
                    DetailList [ErrorDetail "New password fields didn't match."])]))) ∧
  (n = c → ChangePasswordSerializer.validate attrs = Ok attrs).
Proof.
  intros Hn Hc. split.
  - intros Hne.
    pose proof (ChangePassword_validate_differ attrs n c Hn Hc Hne) as Hvalidate.
    split; [done|]. intros context partial data Hfields.
    unfold run_validation. rewrite Hfields. simpl. by rewrite Hvalidate.
  - intros <-. by eapply ChangePassword_validate_equal.
Qed.

(** C10: [validate] reads [attrs['new_password']] and
    [attrs['confirm_password']] without a guard.  On attributes that hold
    both it returns the attributes or raises the mismatch error; on
    attributes without [new_password] it raises [KeyError] for that key,
    and on attributes with [new_password] and without [confirm_password]
    it raises [KeyError] for [confirm_password]: no validation error in
    either case.  The attributes read from a payload outside a partial
    update hold both keys. *)
Theorem validate_unguarded_lookups attrs :
  (∀ n c, attrs !! "new_password" = Some n → attrs !! "confirm_password" = Some c →
     ChangePasswordSerializer.validate attrs = Ok attrs ∨
     ChangePasswordSerializer.validate attrs =
       Raise (ValidationError (DetailDict
                [("confirm_password",
                  ErrorDetail "New password fields didn't match.")]))) ∧
  (attrs !! "new_password" = None →
     ChangePasswordSerializer.validate attrs = Raise (KeyError "new_password")) ∧
  (is_Some (attrs !! "new_password") → attrs !! "confirm_password" = None →
     ChangePasswordSerializer.validate attrs = Raise (KeyError "confirm_password")) ∧
  (∀ context data,
     to_internal_value (serializer context) false data = Ok attrs →
     is_Some (attrs !! "new_password") ∧ is_Some (attrs !! "confirm_password")).
Proof.
  split; [|split; [|split]].
  - intros n c Hn Hc. destruct (decide (n = c)) as [->|Hne].
    + left. by eapply ChangePassword_validate_equal.
    + right. by eapply ChangePassword_validate_differ.
  - apply ChangePassword_validate_no_new.
  - apply ChangePassword_validate_no_confirm.
  - intros context data Hfields. split.
    + apply (to_internal_value_required _ _ _
               ChangePasswordSerializer.new_password Hfields); [|done..].
      simpl. rewrite !elem_of_cons. tauto.
    + apply (to_internal_value_required _ _ _
               ChangePasswordSerializer.confirm_password Hfields); [|done..].
      simpl. rewrite !elem_of_cons. tauto.
Qed.
End ChangePasswordFacts.

(** ** The properties on the small identity store *)

Section DemoRuns.
Import Demo.

Lemma get_permissions_union_witness :
  is_superuser alice = false ∧
  UserSerializer.get_permissions (Store:=list DemoUser) [] alice
    ≡ₚ effective_permissions (Store:=list DemoUser) [] alice ∧
  "delete_z" ∉ UserSerializer.get_permissions (Store:=list DemoUser) [] alice.
Proof.
  assert (is_superuser alice = false) as Hsu by reflexivity.
  destruct (get_permissions_union (Store:=list DemoUser) [] alice Hsu)
    as (_ & _ & Hinactive & Hperm).
  split; [done|]. split; [done|]. apply Hinactive.
  - simpl. rewrite elem_of_cons, elem_of_nil. intros [|[]]; discriminate.
  - simpl. intros user_role p. rewrite !elem_of_cons, elem_of_nil.
    intros [->|[->|[]]]; simpl; rewrite ?elem_of_cons, elem_of_nil;
      [intros [->|[]]; discriminate|done].
Defined.

Lemma get_permissions_superuser_witness :
  is_superuser root = true ∧
  UserSerializer.get_permissions (Store:=list DemoUser) [] root = ["*"].
Proof.
  split; [reflexivity|].
  apply (get_permissions_superuser (Store:=list DemoUser) [] root). reflexivity.
Defined.

Lemma UserSerializer_validate_passwords_witness :
  UserSerializer.validate mismatched =
    Raise (ValidationError (DetailDict
             [("password", ErrorDetail "Password fields didn't match.")])) ∧
  UserSerializer.validate validated = Ok validated ∧
  UserSerializer.validate (∅ : Attrs DemoUser) = Ok ∅.
Proof.
  split; [|split].
  - apply (proj1 (UserSerializer_validate_passwords mismatched)
             (VStr "s3cret-pass") (VStr "s3cret-typo"));
      [reflexivity|reflexivity|discriminate].
  - apply (proj1 (proj2 (UserSerializer_validate_passwords validated))
             (VStr "s3cret-pass")); reflexivity.
  - apply (proj2 (proj2 (UserSerializer_validate_passwords ∅))). left. reflexivity.
Defined.

Lemma update_password_witness :
  validated !! "password" = Some (VStr "s3cret-pass") ∧
  ∃ generic : Attrs DemoUser,
    UserSerializer.update alice validated [] =
      ModelSerializer_update (set_password alice (VStr "s3cret-pass")) generic [] ∧
    generic !! "password" = None ∧ generic !! "password2" = None ∧
    generic !! "username" = Some (VStr "bob").
Proof.
  assert (validated !! "password" = Some (VStr "s3cret-pass")) as Hpw by reflexivity.
  destruct (update_password alice validated (VStr "s3cret-pass") [] Hpw)
    as (generic & Hupdate & Hp & Hp2 & Hother & _).
  split; [done|]. exists generic. split; [done|]. split; [done|]. split; [done|].
  rewrite Hother; [reflexivity|discriminate..].
Defined.

Lemma create_delegates_witness :
  validated !! "password2" = Some (VStr "s3cret-pass") ∧
  ∃ kwargs : Attrs DemoUser,
    UserSerializer.create as_root validated [] = create_user kwargs [] ∧
    kwargs !! "password2" = None ∧
    kwargs !! "created_by" = Some (VUser root) ∧
    kwargs !! "password" = Some (VStr "s3cret-pass").
Proof.
  assert (validated !! "password2" = Some (VStr "s3cret-pass")) as Hp2 by reflexivity.
  destruct (create_delegates as_root validated (VStr "s3cret-pass") [] Hp2)
    as (kwargs & Hcreate & Hno & Hby & Hother & _).
  split; [done|]. exists kwargs. split; [done|]. split; [done|]. split; [done|].
  rewrite Hother; [reflexivity|discriminate..].
Defined.

Lemma validate_accepts_witness :
  validated !! "password" = Some (VStr "s3cret-pass") ∧
  validated !! "password2" = Some (VStr "s3cret-pass") ∧
  validate_password (VStr "s3cret-pass" : Value DemoUser) = None ∧
  UserSerializer.validate validated = Ok validated ∧
  run_validation UserSerializer.serializer false payload = Ok validated.
Proof.
  assert (validated !! "password" = Some (VStr "s3cret-pass")) as Hp by reflexivity.
  assert (validated !! "password2" = Some (VStr "s3cret-pass")) as Hp2 by reflexivity.
  assert (validate_password (VStr "s3cret-pass" : Value DemoUser) = None) as Hpolicy
    by reflexivity.
  destruct (validate_accepts validated (VStr "s3cret-pass")
              Hp Hp2 Hpolicy) as (_ & Hvalidate & Hrun).
  split; [done|]. split; [done|]. split; [done|]. split; [done|].
  apply Hrun; vm_compute; reflexivity.
Defined.

Lemma current_password_checked_witness :
  check_password alice (VStr "guess") = false ∧
  check_password alice (VStr "correct horse") = true ∧
  (∃ rest,
     run_validation (ChangePasswordSerializer.serializer (Store:=list DemoUser) as_alice)
       false (change_request "guess" "new-s3cret" "new-s3cret") =
       Raise (ValidationError (DetailDict
         (("current_password",
           DetailList [ErrorDetail "Current password is incorrect."]) :: rest)))) ∧
  ChangePasswordSerializer.validate_current_password (Store:=list DemoUser) as_alice
    (VStr "correct horse") = Ok (VStr "correct horse").
Proof.
  assert (check_password alice (VStr "guess") = false) as Hwrong by reflexivity.
  assert (check_password alice (VStr "correct horse") = true) as Hright by reflexivity.
  split; [done|]. split; [done|]. split.
  - apply (proj2 (proj1 (current_password_checked (Store:=list DemoUser) as_alice
                           (VStr "guess")) Hwrong)
             false (change_request "guess" "new-s3cret" "new-s3cret") (VStr "guess"));
      [reflexivity|discriminate|reflexivity].
  - apply (proj2 (current_password_checked (Store:=list DemoUser) as_alice
                    (VStr "correct horse")) Hright).
Defined.

Lemma new_password_confirmed_witness :
  ChangePasswordSerializer.validate (change_request "correct horse" "new-s3cret" "new-typo")
    = Raise (ValidationError (DetailDict
               [("confirm_password", ErrorDetail "New password fields didn't match.")])) ∧
  run_validation (ChangePasswordSerializer.serializer (Store:=list DemoUser) as_alice)
    false (change_request "correct horse" "new-s3cret" "new-typo")
    = Raise (ValidationError (DetailDict
               [("confirm_password",
                 DetailList [ErrorDetail "New password fields didn't match."])])) ∧
  ChangePasswordSerializer.validate (change_request "correct horse" "new-s3cret" "new-s3cret")
    = Ok (change_request "correct horse" "new-s3cret" "new-s3cret").
Proof.
  pose proof (new_password_confirmed (Store:=list DemoUser)
                (change_request "correct horse" "new-s3cret" "new-typo")
                (VStr "new-s3cret") (VStr "new-typo") eq_refl eq_refl) as [Hdiffer _].
  pose proof (new_password_confirmed (Store:=list DemoUser)
                (change_request "correct horse" "new-s3cret" "new-s3cret")
                (VStr "new-s3cret") (VStr "new-s3cret") eq_refl eq_refl) as [_ Hequal].
  destruct Hdiffer as [Hvalidate Hrun]; [discriminate|].
  split; [done|]. split; [|by apply Hequal].
  apply Hrun. vm_compute. reflexivity.
Defined.

Lemma read_only_never_input_witness :
  run_validation UserSerializer.serializer false payload = Ok validated ∧
  is_Some (payload !! "id") ∧ validated !! "id" = None ∧
  is_Some (payload !! "created_by") ∧ validated !! "created_by" = None ∧
  is_Some (payload !! "permissions") ∧ validated !! "permissions" = None.
Proof.
  assert (run_validation UserSerializer.serializer false payload = Ok validated) as Hrun
    by (vm_compute; reflexivity).
  destruct (read_only_never_input (Store:=list DemoUser) false payload validated Hrun)
    as (Hnever & _ & _).
  assert (∀ name, name ∈ never_input → validated !! name = None) as Hkept
    by exact Hnever.
  unfold never_input in Hkept.
  split; [done|]. split; [by eexists|].
  split; [apply Hkept; rewrite !elem_of_cons; tauto|]. split; [by eexists|].
  split; [apply Hkept; rewrite !elem_of_cons; tauto|]. split; [by eexists|].
  apply Hkept; rewrite !elem_of_cons; tauto.
Defined.

Lemma validate_unguarded_lookups_witness :
  ChangePasswordSerializer.validate (∅ : Attrs DemoUser)
    = Raise (KeyError "new_password") ∧
  ChangePasswordSerializer.validate ({[ "new_password" := VStr "new-s3cret" ]} : Attrs DemoUser)
    = Raise (KeyError "confirm_password") ∧
  is_Some (change_request "correct horse" "new-s3cret" "new-s3cret" !! "new_password") ∧
  is_Some (change_request "correct horse" "new-s3cret" "new-s3cret" !! "confirm_password").
Proof.
  split; [|split].
  - apply (proj1 (proj2 (validate_unguarded_lookups (Store:=list DemoUser) ∅))).
    reflexivity.
  - apply (proj1 (proj2 (proj2 (validate_unguarded_lookups (Store:=list DemoUser)
                                  {[ "new_password" := VStr "new-s3cret" ]}))));
      [eexists|]; reflexivity.
  - apply (proj2 (proj2 (proj2 (validate_unguarded_lookups (Store:=list DemoUser)
                                  (change_request "correct horse" "new-s3cret" "new-s3cret"))))
             as_alice (change_request "correct horse" "new-s3cret" "new-s3cret")).
    vm_compute. reflexivity.
Defined.
End DemoRuns.


(** * Further properties *)

(** ** UserSerializer.update and UserSerializer.create *)

Section UpdateCreateMore.
Context {User Store : Type} `{!EqDecision User}.
Context `{!IdentityStore User Store}.
Implicit Types (validated_data attrs : Attrs User) (instance : User) (db : Store).
Implicit Types (context : Context User) (x y p : Value User).

(** X1: [update] never looks at the value of [password2]: whatever the
    confirmation holds, and whether or not it equals [password], the call
    behaves as on the dictionary without the key. *)
Theorem update_ignores_password2 instance validated_data x db :
  UserSerializer.update instance (<["password2" := x]> validated_data) db =
  UserSerializer.update instance (delete "password2" validated_data) db.
Proof.
  rewrite !update_eq. rewrite lookup_insert_ne by done. rewrite lookup_delete_ne by done.
  f_equal. apply map_eq. intros k.
  destruct (decide (k = "password2")) as [->|Hk2]; [by rewrite !lookup_delete_eq|].
  rewrite !(lookup_delete_ne _ "password2") by done.
  destruct (decide (k = "password")) as [->|Hk]; [by rewrite !lookup_delete_eq|].
  rewrite !(lookup_delete_ne _ "password") by done.
  by rewrite lookup_insert_ne, lookup_delete_ne.
Qed.

(** X2: [update] on attributes without [password] hands the instance to the
    generic update as it came, without a call of [set_password], and the
    dictionary it hands over differs from the attributes by [password2]
    only. *)
Theorem update_without_password instance validated_data db :
  validated_data !! "password" = None →
  UserSerializer.update instance validated_data db =
    ModelSerializer_update instance (delete "password2" validated_data) db ∧
  ∀ k, k ≠ "password2" →
    delete "password2" validated_data !! k = validated_data !! k.
Proof.
  intros Hpw. split.
  - rewrite update_eq, Hpw. by rewrite (delete_id _ _ Hpw).
  - intros k Hk. by rewrite lookup_delete_ne.
Qed.

Lemma create_KeyError context validated_data db :
  validated_data !! "password2" = None →
  UserSerializer.create context validated_data db = (Raise (KeyError "password2"), db).
Proof.
  intros Hp2. unfold UserSerializer.create, M_bind, M_lift. by run_lookups.
Qed.

(** X3: [create] on attributes without [password2] raises [KeyError] for
    that key at the [pop], whatever else the attributes hold; [create_user]
    is not called and the database is left as it was.  With the key
    present, [create] is a call of [create_user] and raises nothing of its
    own. *)
Theorem create_without_password2 context validated_data db :
  (validated_data !! "password2" = None →
   UserSerializer.create context validated_data db
   = (Raise (KeyError "password2"), db)) ∧
  (is_Some (validated_data !! "password2") →
   ∃ kwargs : Attrs User,
     UserSerializer.create context validated_data db = create_user kwargs db).
Proof.
  split; [apply create_KeyError|].
  intros [p2 Hp2]. eexists. by eapply create_eq.
Qed.

(** X4: a [created_by] that the attributes already carry never reaches
    [create_user]: [create] behaves as if it were not there, because the
    requesting user is written over it. *)
Theorem create_overwrites_created_by context validated_data x db :
  UserSerializer.create context (<["created_by" := x]> validated_data) db =
  UserSerializer.create context (delete "created_by" validated_data) db.
Proof.
  destruct (validated_data !! "password2") as [p2|] eqn:Hp2.
  - rewrite (create_eq context (<["created_by" := x]> validated_data) p2)
      by by rewrite lookup_insert_ne.
    rewrite (create_eq context (delete "created_by" validated_data) p2)
      by by rewrite lookup_delete_ne.
    f_equal. apply map_eq. intros k.
    destruct (decide (k = "created_by")) as [->|Hk]; [by rewrite !lookup_insert_eq|].
    rewrite !(lookup_insert_ne _ "created_by") by done.
    destruct (decide (k = "password2")) as [->|Hk2]; [by rewrite !lookup_delete_eq|].
    rewrite !(lookup_delete_ne _ "password2") by done.
    by rewrite lookup_insert_ne, lookup_delete_ne.
  - rewrite !create_KeyError; [done|by rewrite lookup_delete_ne|
                                by rewrite lookup_insert_ne].
Qed.

(** X5: after [validate] has returned on attributes that hold [password]
    and [password2], the two values are equal, and [create] on the returned
    attributes hands that confirmed value to [create_user] as [password]. *)
Theorem validate_then_create context attrs attrs' p p2 db :
  UserSerializer.validate attrs = Ok attrs' →
  attrs !! "password" = Some p → attrs !! "password2" = Some p2 →
  p = p2 ∧
  ∃ kwargs : Attrs User,
    UserSerializer.create context attrs' db = create_user kwargs db ∧
    kwargs !! "password" = Some p2 ∧ kwargs !! "password2" = None.
Proof.
  intros Hvalidate Hp Hp2.
  pose proof (UserSerializer_validate_Ok _ _ Hvalidate) as ->.
  assert (p = p2) as <-.
  { destruct (decide (p = p2)) as [|Hne]; [done|].
    rewrite (UserSerializer_validate_differ attrs p p2 Hp Hp2 Hne) in Hvalidate.
    discriminate. }
  split; [done|]. eexists. split; [by eapply create_eq|]. split.
  - by rewrite lookup_insert_ne, lookup_delete_ne.
  - by rewrite lookup_insert_ne, lookup_delete_eq.
Qed.

(** X6: after [validate] has returned on attributes that hold [password]
    and [password2], [update] on the returned attributes calls
    [set_password] with the confirmed value, and the generic update gets
    neither of the two keys. *)
Theorem validate_then_update instance attrs attrs' p p2 db :
  UserSerializer.validate attrs = Ok attrs' →
  attrs !! "password" = Some p → attrs !! "password2" = Some p2 →
  UserSerializer.update instance attrs' db =
    ModelSerializer_update (set_password instance p2)
      (delete "password2" (delete "password" attrs)) db.
Proof.
  intros Hvalidate Hp Hp2.
  pose proof (UserSerializer_validate_Ok _ _ Hvalidate) as ->.
  assert (p = p2) as <-.
  { destruct (decide (p = p2)) as [|Hne]; [done|].
    rewrite (UserSerializer_validate_differ attrs p p2 Hp Hp2 Hne) in Hvalidate.
    discriminate. }
  by rewrite update_eq, Hp.
Qed.
End UpdateCreateMore.

(** ** The cross-field checks, read backwards *)

Section ValidateInversion.
Context {User : Type} `{!EqDecision User}.
Implicit Types (attrs : Attrs User) (e : exn).

(** X7: [UserSerializer.validate] raises nothing but the mismatch error,
    and raises it only on attributes that hold both [password] and
    [password2] with different values; in particular its two lookups never
    raise [KeyError].  When it returns, it returns its argument. *)
Theorem UserSerializer_validate_inversion attrs :
  (∀ e, UserSerializer.validate attrs = Raise e →
     e = ValidationError (DetailDict
           [("password", ErrorDetail "Password fields didn't match.")]) ∧
     ∃ p p2, attrs !! "password" = Some p ∧ attrs !! "password2" = Some p2 ∧ p ≠ p2) ∧
  (∀ attrs', UserSerializer.validate attrs = Ok attrs' → attrs' = attrs).
Proof.
  split; [|intros attrs'; apply UserSerializer_validate_Ok].
  intros e. destruct (attrs !! "password") as [p|] eqn:Hp.
  - destruct (attrs !! "password2") as [p2|] eqn:Hp2.
    + destruct (decide (p = p2)) as [<-|Hne].
      * by rewrite (UserSerializer_validate_equal attrs p Hp Hp2).
      * rewrite (UserSerializer_validate_differ attrs p p2 Hp Hp2 Hne).
        intros [= <-]. split; [done|]. by exists p, p2.
    + rewrite UserSerializer_validate_absent; [done|by right].
  - rewrite UserSerializer_validate_absent; [done|by left].
Qed.

(** X8: [ChangePasswordSerializer.validate] returns only on attributes that
    hold [new_password] and [confirm_password] with the same value, and then
    returns its argument; it raises a validation error only when both are
    there with different values, and a [KeyError] only when one is
    missing. *)
Theorem ChangePassword_validate_inversion attrs :
  (∀ attrs', ChangePasswordSerializer.validate attrs = Ok attrs' →
     attrs' = attrs ∧
     ∃ n, attrs !! "new_password" = Some n ∧ attrs !! "confirm_password" = Some n) ∧
  (∀ d, ChangePasswordSerializer.validate attrs = Raise (ValidationError d) →
     ∃ n c, attrs !! "new_password" = Some n ∧ attrs !! "confirm_password" = Some c ∧
            n ≠ c) ∧
  (∀ key, ChangePasswordSerializer.validate attrs = Raise (KeyError key) →
     attrs !! key = None ∧ (key = "new_password" ∨ key = "confirm_password")).
Proof.
  destruct (attrs !! "new_password") as [n|] eqn:Hn.
  - destruct (attrs !! "confirm_password") as [c|] eqn:Hc.
    + destruct (decide (n = c)) as [<-|Hne].
      * rewrite (ChangePassword_validate_equal attrs n Hn Hc).
        split; [|split]; [|discriminate..]. intros ? [= <-]. split; [done|]. by exists n.
      * rewrite (ChangePassword_validate_differ attrs n c Hn Hc Hne).
        split; [|split]; [discriminate| |discriminate]. intros _ _. by exists n, c.
    + rewrite (ChangePassword_validate_no_confirm attrs) by eauto.
      split; [|split]; [discriminate..|]. intros ? [= <-]. split; [done|by right].
  - rewrite (ChangePassword_validate_no_new attrs Hn).
    split; [|split]; [discriminate..|]. intros ? [= <-]. split; [done|by left].
Qed.
End ValidateInversion.

(** ** UserSerializer.get_permissions, further *)

Section GetPermissionsMore.
Context {User Store : Type} `{!EqDecision User, !IdentityStore User Store}.
Implicit Types (db : Store) (obj : User) (c : string).

(** X9: for a user who is not a superuser, [get_permissions] returns the
    empty list exactly when the user has no direct permission and no active
    role assignment whose role has a permission. *)
Theorem get_permissions_empty db obj :
  is_superuser obj = false →
  UserSerializer.get_permissions db obj = [] ↔
    user_permissions db obj = [] ∧
    ∀ user_role, user_role ∈ user_roles db obj → is_active user_role = true →
                 permissions (role user_role) = [].
Proof.
  intros Hsu. split.
  - intros Hempty. split.
    + destruct (user_permissions db obj) as [|p ps] eqn:Hps; [done|].
      assert (codename p ∈ UserSerializer.get_permissions db obj) as Hin.
      { apply elem_of_get_permissions; [done|]. left. exists p.
        rewrite Hps. split; [apply list_elem_of_here|done]. }
      rewrite Hempty in Hin. by apply elem_of_nil in Hin.
    + intros ur Hur Hact. destruct (permissions (role ur)) as [|p ps] eqn:Hps; [done|].
      assert (code p ∈ UserSerializer.get_permissions db obj) as Hin.
      { apply elem_of_get_permissions; [done|]. right. exists ur.
        split; [done|]. split; [done|]. exists p.
        rewrite Hps. split; [apply list_elem_of_here|done]. }
      rewrite Hempty in Hin. by apply elem_of_nil in Hin.
  - intros [Hdirect Hroles].
    destruct (UserSerializer.get_permissions db obj) as [|c l] eqn:Hl; [done|].
    assert (c ∈ UserSerializer.get_permissions db obj) as Hin
      by (rewrite Hl; apply list_elem_of_here).
    apply (elem_of_get_permissions db obj c Hsu) in Hin
      as [(p & Hp & _)|(ur & Hur & Hact & p & Hp & _)].
    + rewrite Hdirect in Hp. by apply elem_of_nil in Hp.
    + rewrite (Hroles ur Hur Hact) in Hp. by apply elem_of_nil in Hp.
Qed.

(** X10: [get_permissions] only grows with the rows it reads: when a user
    who is not a superuser has every direct permission and every role
    assignment of another such user, every code returned for the second is
    returned for the first. *)
Theorem get_permissions_monotone db db' obj obj' :
  is_superuser obj = false → is_superuser obj' = false →
  user_permissions db obj ⊆ user_permissions db' obj' →
  user_roles db obj ⊆ user_roles db' obj' →
  UserSerializer.get_permissions db obj ⊆ UserSerializer.get_permissions db' obj'.
Proof.
  intros Hsu Hsu' Hdirect Hroles c Hc.
  apply (elem_of_get_permissions db' obj' c Hsu').
  apply (elem_of_get_permissions db obj c Hsu) in Hc
    as [(p & Hp & Hpc)|(ur & Hur & Hact & p & Hp & Hpc)].
  - left. exists p. split; [by apply Hdirect|done].
  - right. exists ur. split; [by apply Hroles|]. split; [done|]. by exists p.
Qed.

(** X11: for a user who is not a superuser, the list that [get_permissions]
    returns is no longer than the rows it read: the direct permissions plus
    the permissions of the roles of the active assignments. *)
Theorem get_permissions_length db obj :
  is_superuser obj = false →
  (length (UserSerializer.get_permissions db obj)
   ≤ length (user_permissions db obj)
     + sum_list ((λ user_role, length (permissions (role user_role))) <$>
                   filter (λ user_role, is_active user_role = true)
                     (user_roles db obj)))%nat.
Proof.
  intros Hsu.
  assert (length (active_role_codes db obj)
          = sum_list ((λ user_role, length (permissions (role user_role))) <$>
                        filter (λ user_role, is_active user_role = true)
                          (user_roles db obj))) as <-.
  { unfold active_role_codes.
    induction (filter _ (user_roles db obj)) as [|ur l IH]; [done|].
    cbn [mbind list_bind fmap list_fmap sum_list sum_list_with].
    rewrite length_app, length_fmap. f_equal. apply IH. }
  rewrite <-(length_fmap codename (user_permissions db obj)), <-length_app.
  apply submseteq_length, NoDup_submseteq; [by apply NoDup_get_permissions|].
  intros c Hc. apply (elem_of_get_permissions db obj c Hsu) in Hc.
  apply (proj2 (elem_of_effective_permissions db obj c)) in Hc.
  unfold effective_permissions, direct_codes in Hc.
  rewrite elem_of_remove_dups in Hc. exact Hc.
Qed.

(** X12: the wildcard is not reserved for superusers: for a user who is not
    a superuser, [get_permissions] returns ["*"] exactly when the user has
    some direct permission or some permission through an active role
    assignment, and every such permission has the code "*". *)
Theorem get_permissions_wildcard db obj :
  is_superuser obj = false →
  UserSerializer.get_permissions db obj = ["*"] ↔
    ((∃ p, p ∈ user_permissions db obj) ∨
     (∃ user_role p, user_role ∈ user_roles db obj ∧ is_active user_role = true ∧
                     p ∈ permissions (role user_role))) ∧
    (∀ p, p ∈ user_permissions db obj → codename p = "*") ∧
    (∀ user_role p, user_role ∈ user_roles db obj → is_active user_role = true →
                    p ∈ permissions (role user_role) → code p = "*").
Proof.
  intros Hsu. pose proof (elem_of_get_permissions db obj) as Hmem.
  pose proof (NoDup_get_permissions db obj Hsu) as Hnodup. split.
  - intros Hstar. rewrite Hstar in Hmem. split; [|split].
    + destruct (proj1 (Hmem "*" Hsu)) as [(p & Hp & _)|(ur & Hur & Hact & p & Hp & _)];
        [apply list_elem_of_here|left; by exists p|right; by exists ur, p].
    + intros p Hp. apply list_elem_of_singleton, Hmem; [done|]. left. by exists p.
    + intros ur p Hur Hact Hp. apply list_elem_of_singleton, Hmem; [done|].
      right. exists ur. split; [done|]. split; [done|]. by exists p.
  - intros (Hsome & Hdirect & Hroles).
    assert (∀ c, c ∈ UserSerializer.get_permissions db obj → c = "*") as Hall.
    { intros c Hc. apply (Hmem c Hsu) in Hc
        as [(p & Hp & <-)|(ur & Hur & Hact & p & Hp & <-)]; eauto. }
    assert ("*" ∈ UserSerializer.get_permissions db obj) as Hin.
    { apply Hmem; [done|].
      destruct Hsome as [(p & Hp)|(ur & p & Hur & Hact & Hp)].
      - left. exists p. eauto.
      - right. exists ur. split; [done|]. split; [done|]. exists p. eauto. }
    destruct (UserSerializer.get_permissions db obj) as [|c l]; [by apply elem_of_nil in Hin|].
    rewrite (Hall c) by apply list_elem_of_here.
    destruct l as [|c' l]; [done|].
    apply NoDup_cons in Hnodup as [Hnotin _].
    rewrite (Hall c) in Hnotin by apply list_elem_of_here.
    rewrite (Hall c') in Hnotin by (apply list_elem_of_further, list_elem_of_here).
    exfalso. apply Hnotin, list_elem_of_here.
Qed.
End GetPermissionsMore.

(** ** The validation pass, further *)

Section ValidationMore.
Context {User : Type} `{!Host User}.
Implicit Types (S : Serializer User) (field : Field User) (data ret : Attrs User).
Implicit Types (errors : list (string * detail)).

(** A field that the payload does not hold is never written. *)
Lemma validate_field_from_payload S partial field data v :
  validate_field S partial field data = Ok (Some v) →
  is_Some (data !! field_name field).
Proof.
  intros Hfield. apply validate_field_Some in Hfield as (r0 & Hrun & Hiff).
  destruct (data !! field_name field) as [raw|]; [eauto|].
  assert (is_Some r0) as [v0 ->] by (apply Hiff; eauto).
  simpl in Hrun. destruct partial; [discriminate|].
  by destruct (required field).
Qed.

Lemma to_internal_fields_from_payload S partial fields data ret errors ret' errors' k :
  to_internal_fields S partial fields data ret errors = Ok (ret', errors') →
  is_Some (ret' !! k) → is_Some (ret !! k) ∨ is_Some (data !! k).
Proof.
  revert ret errors. induction fields as [|field fields IH]; intros ret errors; simpl.
  - intros [= <- <-]. by left.
  - destruct (validate_field S partial field data) as [[v|]|[d|key]] eqn:Hfield;
      [| | |discriminate]; intros Hloop Hk;
      destruct (IH _ _ Hloop Hk) as [Hret|Hdata]; try (by left); try (by right).
    destruct (decide (field_name field = k)) as [<-|Hne].
    + right. by eapply validate_field_from_payload.
    + left. by rewrite lookup_insert_ne in Hret.
Qed.

(** The validated attributes have keys of the payload only. *)
Lemma to_internal_value_from_payload S partial data attrs k :
  to_internal_value S partial data = Ok attrs → is_Some (attrs !! k) →
  is_Some (data !! k).
Proof.
  unfold to_internal_value.
  destruct (to_internal_fields _ _ _ _ _ _) as [[ret errors]|] eqn:Hloop;
    [simpl|discriminate].
  destruct errors; [|discriminate]. intros [= <-] Hk.
  destruct (to_internal_fields_from_payload _ _ _ _ _ _ _ _ _ Hloop Hk) as [Hempty|Hin];
    [|done].
  rewrite lookup_empty in Hempty. by destruct Hempty.
Qed.

Lemma elem_of_setitem key d errors : (key, d) ∈ setitem key d errors.
Proof.
  induction errors as [|[k d'] errors IH]; simpl; [apply list_elem_of_here|].
  case_decide as Hk; [subst; apply list_elem_of_here|by apply list_elem_of_further].
Qed.

Lemma elem_of_setitem_ne key d k d' errors :
  k ≠ key → (k, d') ∈ errors → (k, d') ∈ setitem key d errors.
Proof.
  intros Hne. induction errors as [|[k0 d0] errors IH]; simpl; intros Hin;
    [by apply elem_of_nil in Hin|].
  apply elem_of_cons in Hin as [[= <- <-]|Hin].
  - rewrite decide_False by done. apply list_elem_of_here.
  - case_decide; apply list_elem_of_further; [done|by apply IH].
Qed.

(** When the fields raise nothing but validation errors, the loop ends, and
    an error filed under a name that no later field has is still there. *)
Lemma to_internal_fields_error_stays S partial fields data ret errors k d :
  (∀ f e, f ∈ fields → validate_field S partial f data = Raise e →
          ∃ d', e = ValidationError d') →
  k ∉ field_name <$> fields → (k, d) ∈ errors →
  ∃ ret' errors',
    to_internal_fields S partial fields data ret errors = Ok (ret', errors') ∧
    (k, d) ∈ errors'.
Proof.
  revert ret errors. induction fields as [|field fields IH];
    intros ret errors Hraises Hk Hin; cbn [to_internal_fields].
  - eauto.
  - assert (k ≠ field_name field) as Hne.
    { intros ->. apply Hk, list_elem_of_here. }
    assert (k ∉ field_name <$> fields) as Hk'.
    { intros Hin'. by apply Hk, list_elem_of_further. }
    assert (∀ f e, f ∈ fields → validate_field S partial f data = Raise e →
                   ∃ d', e = ValidationError d') as Hraises'.
    { intros f e Hf. by apply Hraises, list_elem_of_further. }
    destruct (validate_field S partial field data) as [[v|]|e] eqn:Hfield;
      [by apply IH..|].
    apply Hraises in Hfield as [d' ->]; [|apply list_elem_of_here].
    apply IH; [done..|]. by apply elem_of_setitem_ne.
Qed.

Lemma to_internal_fields_error_kept S partial fields data ret errors field d :
  (∀ f e, f ∈ fields → validate_field S partial f data = Raise e →
          ∃ d', e = ValidationError d') →
  NoDup (field_name <$> fields) →
  field ∈ fields → validate_field S partial field data = Raise (ValidationError d) →
  ∃ ret' errors',
    to_internal_fields S partial fields data ret errors = Ok (ret', errors') ∧
    (field_name field, d) ∈ errors'.
Proof.
  revert ret errors. induction fields as [|f fields IH];
    intros ret errors Hraises Hnodup Hin Hfield; [by apply elem_of_nil in Hin|].
  rewrite fmap_cons in Hnodup. apply NoDup_cons in Hnodup as [Hnotin Hnodup].
  assert (∀ f' e, f' ∈ fields → validate_field S partial f' data = Raise e →
                  ∃ d', e = ValidationError d') as Hraises'.
  { intros f' e Hf'. by apply Hraises, list_elem_of_further. }
  cbn [to_internal_fields]. apply elem_of_cons in Hin as [->|Hin].
  - rewrite Hfield. apply to_internal_fields_error_stays; [done..|].
    apply elem_of_setitem.
  - destruct (validate_field S partial f data) as [[v|]|e] eqn:Hf; [by apply IH..|].
    apply Hraises in Hf as [d' ->]; [|apply list_elem_of_here]. by apply IH.
Qed.

(** When the writable fields raise nothing but validation errors and have
    different names, the validation raises a dictionary that holds the error
    of every field that failed. *)
Lemma run_validation_field_error S partial data field d :
  (∀ f e, f ∈ writable_fields S → validate_field S partial f data = Raise e →
          ∃ d', e = ValidationError d') →
  NoDup (field_name <$> writable_fields S) →
  field ∈ writable_fields S →
  validate_field S partial field data = Raise (ValidationError d) →
  ∃ errors,
    run_validation S partial data = Raise (ValidationError (DetailDict errors)) ∧
    (field_name field, d) ∈ errors.
Proof.
  intros Hraises Hnodup Hin Hfield.
  destruct (to_internal_fields_error_kept S partial (writable_fields S) data ∅ []
              field d Hraises Hnodup Hin Hfield) as (ret' & errors' & Hloop & Hkept).
  exists errors'. split; [|done].
  unfold run_validation, to_internal_value. rewrite Hloop. simpl.
  destruct errors'; [by apply elem_of_nil in Hkept|done].
Qed.

(** A required field that is missing from the payload, outside a partial
    update. *)
Lemma validate_field_missing S field data :
  required field = true → data !! field_name field = None →
  validate_field S false field data =
    Raise (ValidationError (DetailList [ErrorDetail "This field is required."])).
Proof.
  intros Hreq Hnone. unfold validate_field. rewrite Hnone. simpl. by rewrite Hreq.
Qed.
End ValidationMore.

(** ** The declarations of the two classes under the validation pass *)

Section DeclaredFields.
Context {User Store : Type} `{!EqDecision User}.
Context `{!IdentityStore User Store, !PasswordPolicy User, !Host User}.
Implicit Types (attrs data : Attrs User) (context : Context User).
Implicit Types (raw p v : Value User) (field : Field User).

Let change_password := ChangePasswordSerializer.serializer (Store:=Store).


(** A field on a value that its class and its validators accept. *)
Lemma validate_field_accepts S partial field data raw v :
  data !! field_name field = Some raw → raw ≠ VNone →
  Field_to_internal_value field raw = inr v →
  run_validators (validators field) v = Ok () →
  validate_field S partial field data =
    match ser_validate_method S (field_name field) with
    | Some validate_method => v' ← validate_method v; Ok (Some v')
    | None => Ok (Some v)
    end.
Proof.
  intros Hraw Hnone Hfield Hrun.
  unfold validate_field. rewrite Hraw. unfold Field_run_validation.
  destruct raw; [done|rewrite Hfield, Hrun..]; simpl;
    by destruct (ser_validate_method S (field_name field)).
Qed.

Lemma UserSerializer_field_raises partial data field e :
  validate_field UserSerializer.serializer partial field data = Raise e →
  ∃ d, e = ValidationError d.
Proof. by apply validate_field_raises. Qed.

Lemma fmap_filter_sublist (P : Field User → Prop) `{!∀ f, Decision (P f)}
    (l : list (Field User)) :
  field_name <$> filter P l `sublist_of` field_name <$> l.
Proof. apply fmap_sublist, sublist_filter. Qed.

Lemma UserSerializer_writable_NoDup :
  NoDup (field_name <$> writable_fields (User:=User) UserSerializer.serializer).
Proof.
  apply (sublist_NoDup _ (field_name <$> ser_fields (User:=User) UserSerializer.serializer));
    [|apply fmap_filter_sublist].
  unfold UserSerializer.serializer, UserSerializer.get_fields. cbn [ser_fields].
  rewrite <-list_fmap_compose.
  rewrite (list_fmap_ext _ id UserSerializer.Meta_fields);
    [|intros; apply get_field_name].
  rewrite list_fmap_id. unfold UserSerializer.Meta_fields.
  apply (bool_decide_unpack _). by vm_compute.
Qed.

Lemma UserSerializer_password_writable :
  UserSerializer.password ∈ writable_fields (User:=User) UserSerializer.serializer ∧
  UserSerializer.password2 ∈ writable_fields (User:=User) UserSerializer.serializer.
Proof.
  split; (apply list_elem_of_filter; split; [reflexivity|]);
    simpl; unfold UserSerializer.get_fields; apply list_elem_of_fmap.
  - exists "password". split; [reflexivity|].
    unfold UserSerializer.Meta_fields. rewrite !elem_of_cons. tauto.
  - exists "password2". split; [reflexivity|].
    unfold UserSerializer.Meta_fields. rewrite !elem_of_cons. tauto.
Qed.

(** The names of [Meta.fields] that are not in [never_input]. *)
Lemma Meta_fields_split name :
  name ∈ UserSerializer.Meta_fields →
  name ∈ never_input ∨
  name ∈ ["email"; "username"; "password"; "password2"; "first_name"; "last_name";
          "is_active"; "is_staff"; "is_superuser"].
Proof.
  unfold UserSerializer.Meta_fields, never_input. rewrite !elem_of_cons, !elem_of_nil.
  tauto.
Qed.

(** X13: the attributes that the validation of [UserSerializer] returns
    hold only keys that the payload holds, and only the nine names of
    [Meta.fields] that are not read-only; any other key of the payload is
    dropped. *)
Theorem validated_keys partial data attrs k :
  run_validation UserSerializer.serializer partial data = Ok attrs →
  is_Some (attrs !! k) →
  is_Some (data !! k) ∧
  k ∈ ["email"; "username"; "password"; "password2"; "first_name"; "last_name";
       "is_active"; "is_staff"; "is_superuser"].
Proof.
  intros Hrun Hk. apply run_validation_Ok in Hrun.
  split; [by eapply to_internal_value_from_payload|].
  destruct (to_internal_value_keys _ _ _ _ _ Hrun Hk) as (field & Hin & Hro & <-).
  pose proof (writable_not_never_input field Hin Hro) as Hnever.
  simpl in Hin. unfold UserSerializer.get_fields in Hin.
  apply list_elem_of_fmap in Hin as (name & -> & Hname).
  rewrite get_field_name in *. by destruct (Meta_fields_split name Hname).
Qed.

(** X14: outside a partial update, a payload without [password], or
    without [password2], is refused: the validation raises a dictionary of
    errors that files "This field is required." under the missing name. *)
Theorem passwords_required data name :
  name = "password" ∨ name = "password2" →
  data !! name = None →
  ∃ errors,
    run_validation UserSerializer.serializer false data =
      Raise (ValidationError (DetailDict errors)) ∧
    (name, DetailList [ErrorDetail "This field is required."]) ∈ errors.
Proof.
  intros Hname Hnone. destruct UserSerializer_password_writable as [Hp Hp2].
  destruct Hname as [->| ->].
  - apply (run_validation_field_error _ false data UserSerializer.password);
      [intros f e _; apply UserSerializer_field_raises
      |apply UserSerializer_writable_NoDup|done|by apply validate_field_missing].
  - apply (run_validation_field_error _ false data UserSerializer.password2);
      [intros f e _; apply UserSerializer_field_raises
      |apply UserSerializer_writable_NoDup|done|by apply validate_field_missing].
Qed.


(** X16: on a partial update the confirmation is optional.  When the
    payload has no [password2], [validate] lets the attributes through
    whatever [password] is, and [update] on them sets the password that was
    sent, if any, without a second value to compare it with. *)
Theorem partial_update_without_confirmation data attrs :
  to_internal_value UserSerializer.serializer true data = Ok attrs →
  data !! "password2" = None →
  run_validators model_validators attrs = Ok () →
  run_validation UserSerializer.serializer true data = Ok attrs ∧
  ∀ (instance : User) (db : Store),
    UserSerializer.update instance attrs db =
      ModelSerializer_update
        (match attrs !! "password" with
         | Some password => set_password instance password
         | None => instance
         end)
        (delete "password" attrs) db.
Proof.
  intros Hfields Hnone Hmodel.
  assert (attrs !! "password2" = None) as Hp2.
  { apply eq_None_not_Some. intros Hsome.
    apply (to_internal_value_from_payload _ _ _ _ _ Hfields) in Hsome.
    rewrite Hnone in Hsome. by destruct Hsome. }
  split.
  - unfold run_validation. rewrite Hfields. simpl. rewrite Hmodel. simpl.
    rewrite UserSerializer_validate_absent; [done|by right].
  - intros instance db. rewrite update_eq. f_equal. apply delete_id.
    by rewrite lookup_delete_ne.
Qed.

Lemma ChangePassword_field_raises context partial data field e :
  validate_field (change_password context) partial field data = Raise e →
  ∃ d, e = ValidationError d.
Proof.
  unfold validate_field.
  destruct (Field_run_validation _ _ _) as [[v|]|e'] eqn:Hrun; simpl.
  - destruct (decide (field_name field = "current_password")); [|discriminate].
    unfold ChangePasswordSerializer.validate_current_password, ValidationError_str.
    destruct (check_password _ _); simpl; [discriminate|]. intros [= <-]. eauto.
  - discriminate.
  - intros [= <-]. by eapply Field_run_validation_raises.
Qed.

(** X17: outside a partial update, a change-password payload that lacks
    [current_password], [new_password] or [confirm_password] is refused:
    the validation raises a dictionary of errors that files "This field is
    required." under the missing name, and [validate] is not reached. *)
Theorem change_password_fields_required context data name :
  name = "current_password" ∨ name = "new_password" ∨ name = "confirm_password" →
  data !! name = None →
  ∃ errors,
    run_validation (change_password context) false data =
      Raise (ValidationError (DetailDict errors)) ∧
    (name, DetailList [ErrorDetail "This field is required."]) ∈ errors.
Proof.
  intros Hname Hnone.
  assert (NoDup (field_name <$> writable_fields (change_password context))) as Hnodup.
  { apply (bool_decide_unpack _). by vm_compute. }
  destruct Hname as [->|[->| ->]].
  - apply (run_validation_field_error _ false data
             ChangePasswordSerializer.current_password);
      [intros f e _; apply ChangePassword_field_raises|done| |by apply validate_field_missing].
    unfold change_password. rewrite ChangePassword_writable_fields, !elem_of_cons. tauto.
  - apply (run_validation_field_error _ false data
             ChangePasswordSerializer.new_password);
      [intros f e _; apply ChangePassword_field_raises|done| |by apply validate_field_missing].
    unfold change_password. rewrite ChangePassword_writable_fields, !elem_of_cons. tauto.
  - apply (run_validation_field_error _ false data
             ChangePasswordSerializer.confirm_password);
      [intros f e _; apply ChangePassword_field_raises|done| |by apply validate_field_missing].
    unfold change_password. rewrite ChangePassword_writable_fields, !elem_of_cons. tauto.
Qed.

End DeclaredFields.

(** ** What a successful validation guarantees *)

Section ValidationSound.
Context {User Store : Type} `{!EqDecision User}.
Context `{!IdentityStore User Store, !PasswordPolicy User, !Host User}.
Implicit Types (attrs data ret : Attrs User) (context : Context User).
Implicit Types (raw p v n : Value User) (field : Field User) (S : Serializer User).

Let change_password := ChangePasswordSerializer.serializer (Store:=Store).

(** Every value the loop has written was returned for a field of that
    name. *)
Lemma to_internal_fields_written S partial fields data ret errors ret' errors' k v :
  to_internal_fields S partial fields data ret errors = Ok (ret', errors') →
  ret' !! k = Some v →
  ret !! k = Some v ∨
  ∃ field, field ∈ fields ∧ field_name field = k ∧
           validate_field S partial field data = Ok (Some v).
Proof.
  revert ret errors. induction fields as [|field fields IH]; intros ret errors; simpl.
  - intros [= <- <-]. by left.
  - destruct (validate_field S partial field data) as [[w|]|[d|key]] eqn:Hfield;
      [| | |discriminate]; intros Hloop Hk;
      destruct (IH _ _ Hloop Hk) as [Hret|(f & Hf & Hname & Hv)];
      try (by left);
      try (right; exists f; split; [by apply list_elem_of_further|done]).
    destruct (decide (field_name field = k)) as [<-|Hne].
    + rewrite lookup_insert_eq in Hret. injection Hret as ->.
      right. exists field. split; [apply list_elem_of_here|done].
    + left. by rewrite lookup_insert_ne in Hret.
Qed.

Lemma to_internal_value_written S partial data attrs k v :
  to_internal_value S partial data = Ok attrs → attrs !! k = Some v →
  ∃ field, field ∈ writable_fields S ∧ field_name field = k ∧
           validate_field S partial field data = Ok (Some v).
Proof.
  unfold to_internal_value.
  destruct (to_internal_fields _ _ _ _ _ _) as [[ret errors]|] eqn:Hloop;
    [simpl|discriminate].
  destruct errors; [|discriminate]. intros [= <-] Hk.
  destruct (to_internal_fields_written _ _ _ _ _ _ _ _ _ _ Hloop Hk) as [Hempty|?];
    [|done].
  by rewrite lookup_empty in Hempty.
Qed.

(** A field that lists [validate_password] returns only values for which
    the policy raised no message. *)
Lemma validate_field_policy_ok S partial field data v :
  validators field = [validate_password] → allow_null field = false →
  ser_validate_method S (field_name field) = None →
  validate_field S partial field data = Ok (Some v) →
  default [] (validate_password v) = [].
Proof.
  intros Hvalidators Hnull Hmethod. unfold validate_field. rewrite Hmethod.
  assert (∀ w r, (_ ← run_validators (validators field) w; Ok (Some w)) = Ok r →
                 r = Some w ∧ default [] (validate_password w) = []) as Hrun.
  { intros w r. rewrite Hvalidators. unfold run_validators. simpl.
    rewrite app_nil_r. destruct (default [] (validate_password w)); [|discriminate].
    simpl. by intros [= <-]. }
  destruct (data !! field_name field) as [raw|]; simpl.
  - destruct raw; [by rewrite Hnull|..];
      (destruct (Field_to_internal_value field _) as [msgs|w]; [discriminate|]);
      (destruct (_ ← run_validators (validators field) w; Ok (Some w)) as [r|] eqn:Hw;
       [simpl|discriminate]);
      apply Hrun in Hw as [-> Hw]; by intros [= <-].
  - destruct partial; [discriminate|]. destruct (required field); discriminate.
Qed.

(** X19: a change-password payload whose three values the field classes
    accept is validated when [check_password] accepts the current password,
    the policy accepts the new one and the confirmation is the same value;
    the attributes returned hold exactly the three values. *)
Theorem change_password_accepted context partial data raw1 raw2 raw3 v n :
  data !! "current_password" = Some raw1 → raw1 ≠ VNone →
  Field_to_internal_value ChangePasswordSerializer.current_password raw1 = inr v →
  data !! "new_password" = Some raw2 → raw2 ≠ VNone →
  Field_to_internal_value ChangePasswordSerializer.new_password raw2 = inr n →
  data !! "confirm_password" = Some raw3 → raw3 ≠ VNone →
  Field_to_internal_value ChangePasswordSerializer.confirm_password raw3 = inr n →
  check_password (request_user context) v = true →
  validate_password n = None →
  run_validation (change_password context) partial data =
    Ok (<["confirm_password" := n]>
          (<["new_password" := n]> (<["current_password" := v]> ∅))).
Proof.
  intros H1 Hn1 Hf1 H2 Hn2 Hf2 H3 Hn3 Hf3 Hcheck Hpolicy.
  unfold run_validation, to_internal_value, change_password.
  rewrite ChangePassword_writable_fields. cbn [to_internal_fields].
  rewrite (validate_field_accepts _ partial ChangePasswordSerializer.current_password
             data raw1 v H1 Hn1 Hf1 (run_validators_nil v)).
  rewrite (validate_field_accepts _ partial ChangePasswordSerializer.new_password
             data raw2 n H2 Hn2 Hf2 (run_validators_accept _ n Hpolicy)).
  rewrite (validate_field_accepts _ partial ChangePasswordSerializer.confirm_password
             data raw3 n H3 Hn3 Hf3 (run_validators_nil n)).
  simpl. rewrite (validate_current_password_right context v Hcheck). simpl.
  by rewrite (ChangePassword_validate_equal _ n).
Qed.

(** X20: on a partial update the required-field checks are off, and
    [validate] still indexes both keys: when the fields are accepted and
    the attributes lack [new_password] or [confirm_password], the
    validation ends with a [KeyError] for a key the attributes do not hold,
    not with a validation error. *)
Theorem change_password_partial_KeyError context data attrs :
  to_internal_value (change_password context) true data = Ok attrs →
  attrs !! "new_password" = None ∨ attrs !! "confirm_password" = None →
  ∃ key, (key = "new_password" ∨ key = "confirm_password") ∧
         attrs !! key = None ∧
         run_validation (change_password context) true data = Raise (KeyError key).
Proof.
  intros Hfields Hmissing. unfold run_validation. rewrite Hfields. simpl.
  destruct (attrs !! "new_password") as [n|] eqn:Hn.
  - destruct Hmissing as [|Hc]; [done|]. exists "confirm_password".
    split; [by right|]. split; [done|].
    rewrite ChangePassword_validate_no_confirm; [done|by eexists|done].
  - exists "new_password". split; [by left|]. split; [done|].
    by rewrite ChangePassword_validate_no_new.
Qed.

(** X21: when the validation of a change-password payload returns, the
    attributes hold a [new_password] and an equal [confirm_password], the
    policy raised no message for that value, and a [current_password] among
    the attributes was accepted by [check_password] of the requesting user;
    outside a partial update the attributes hold one. *)
Theorem change_password_sound context partial data attrs :
  run_validation (change_password context) partial data = Ok attrs →
  (∃ n, attrs !! "new_password" = Some n ∧ attrs !! "confirm_password" = Some n ∧
        default [] (validate_password n) = []) ∧
  (∀ v, attrs !! "current_password" = Some v →
        check_password (request_user context) v = true) ∧
  (partial = false → is_Some (attrs !! "current_password")).
Proof.
  unfold run_validation.
  destruct (to_internal_value _ _ _) as [value|] eqn:Hfields; [simpl|discriminate].
  destruct (ChangePasswordSerializer.validate value) as [attrs'|[]] eqn:Hvalidate;
    [|discriminate..].
  intros [= ->].
  assert (attrs = value) as ->.
  { unfold ChangePasswordSerializer.validate in Hvalidate.
    destruct (getitem value "new_password"); [simpl in Hvalidate|discriminate].
    destruct (getitem value "confirm_password"); [simpl in Hvalidate|discriminate].
    case_decide; congruence. }
  assert (∃ n, value !! "new_password" = Some n ∧ value !! "confirm_password" = Some n)
    as (n & Hn & Hc).
  { destruct (value !! "new_password") as [n|] eqn:Hn;
      [|by rewrite ChangePassword_validate_no_new in Hvalidate].
    destruct (value !! "confirm_password") as [c|] eqn:Hc;
      [|rewrite ChangePassword_validate_no_confirm in Hvalidate; [done|by eexists|done]].
    destruct (decide (n = c)) as [<-|Hne]; [by exists n|].
    by rewrite (ChangePassword_validate_differ value n c Hn Hc Hne) in Hvalidate. }
  unfold change_password in Hfields. split; [|split].
  - exists n. split; [done|]. split; [done|].
    destruct (to_internal_value_written _ _ _ _ _ _ Hfields Hn)
      as (field & Hin & Hname & Hfield).
    rewrite ChangePassword_writable_fields, !elem_of_cons, elem_of_nil in Hin.
    destruct Hin as [->|[->|[->|[]]]]; [discriminate| |discriminate].
    exact (validate_field_policy_ok (ChangePasswordSerializer.serializer context) partial
             ChangePasswordSerializer.new_password data n
             eq_refl eq_refl eq_refl Hfield).
  - intros v Hv.
    destruct (to_internal_value_written _ _ _ _ _ _ Hfields Hv)
      as (field & Hin & Hname & Hfield).
    rewrite ChangePassword_writable_fields, !elem_of_cons, elem_of_nil in Hin.
    destruct Hin as [->|[->|[->|[]]]]; [|discriminate..].
    unfold validate_field in Hfield.
    destruct (Field_run_validation _ _ _) as [[v0|]|]; simpl in Hfield;
      [|discriminate..].
    unfold ChangePasswordSerializer.validate_current_password in Hfield.
    destruct (check_password (request_user context) v0) eqn:Hcheck; simpl in Hfield;
      [|discriminate].
    by injection Hfield as <-.
  - intros ->.
    apply (to_internal_value_required _ _ _
             ChangePasswordSerializer.current_password Hfields); [|done..].
    simpl. rewrite !elem_of_cons. tauto.
Qed.

(** X22: when the validation of [UserSerializer] returns, the policy raised
    no message for a [password] among the attributes, and a [password2]
    among them is the same value. *)
Theorem user_password_sound partial data attrs p :
  run_validation UserSerializer.serializer partial data = Ok attrs →
  attrs !! "password" = Some p →
  default [] (validate_password p) = [] ∧
  (∀ p2, attrs !! "password2" = Some p2 → p2 = p).
Proof.
  intros Hrun Hp. pose proof (run_validation_Ok _ _ _ Hrun) as Hfields. split.
  - destruct (to_internal_value_written _ _ _ _ _ _ Hfields Hp)
      as (field & Hin & Hname & Hfield).
    apply list_elem_of_filter in Hin as [_ Hin]. simpl in Hin.
    unfold UserSerializer.get_fields in Hin.
    apply list_elem_of_fmap in Hin as (name & -> & _).
    rewrite get_field_name in Hname. subst name.
    exact (validate_field_policy_ok UserSerializer.serializer partial
             (UserSerializer.get_field "password") data p
             eq_refl eq_refl eq_refl Hfield).
  - intros p2 Hp2. unfold run_validation in Hrun. rewrite Hfields in Hrun.
    simpl in Hrun. destruct (run_validators _ _) as [[]|[]]; simpl in Hrun;
      [|discriminate..].
    destruct (decide (p = p2)) as [|Hne]; [done|].
    by rewrite (UserSerializer_validate_differ attrs p p2 Hp Hp2 Hne) in Hrun.
Qed.
End ValidationSound.

(** ** The further properties on the small identity store *)

Section MoreDemoRuns.
Import Demo.

Lemma update_without_password_witness :
  ({[ "username" := VStr "bob" ]} : Attrs DemoUser) !! "password" = None ∧
  UserSerializer.update alice {[ "username" := VStr "bob" ]} [] =
    ModelSerializer_update alice (delete "password2" {[ "username" := VStr "bob" ]}) [].
Proof.
  assert (({[ "username" := VStr "bob" ]} : Attrs DemoUser) !! "password" = None) as Hpw
    by reflexivity.
  split; [done|].
  apply (proj1 (update_without_password alice {[ "username" := VStr "bob" ]} [] Hpw)).
Defined.

Lemma create_without_password2_witness :
  UserSerializer.create as_root ({[ "username" := VStr "bob" ]} : Attrs DemoUser) []
    = (Raise (KeyError "password2"), []) ∧
  ∃ kwargs : Attrs DemoUser,
    UserSerializer.create as_root validated [] = create_user kwargs [].
Proof.
  split.
  - apply (proj1 (create_without_password2 as_root {[ "username" := VStr "bob" ]} [])).
    reflexivity.
  - apply (proj2 (create_without_password2 as_root validated [])). by eexists.
Defined.

Lemma validate_then_create_witness :
  UserSerializer.validate validated = Ok validated ∧
  ∃ kwargs : Attrs DemoUser,
    UserSerializer.create as_root validated [] = create_user kwargs [] ∧
    kwargs !! "password" = Some (VStr "s3cret-pass") ∧ kwargs !! "password2" = None.
Proof.
  assert (UserSerializer.validate validated = Ok validated) as Hvalidate by reflexivity.
  split; [done|].
  apply (validate_then_create as_root validated validated
           (VStr "s3cret-pass") (VStr "s3cret-pass") [] Hvalidate); reflexivity.
Defined.

Lemma validate_then_update_witness :
  UserSerializer.validate validated = Ok validated ∧
  UserSerializer.update alice validated [] =
    ModelSerializer_update (set_password alice (VStr "s3cret-pass"))
      (delete "password2" (delete "password" validated)) [].
Proof.
  assert (UserSerializer.validate validated = Ok validated) as Hvalidate by reflexivity.
  split; [done|].
  apply (validate_then_update alice validated validated
           (VStr "s3cret-pass") (VStr "s3cret-pass") [] Hvalidate); reflexivity.
Defined.

Lemma UserSerializer_validate_inversion_witness :
  (∃ p p2, mismatched !! "password" = Some p ∧ mismatched !! "password2" = Some p2 ∧
           p ≠ p2) ∧
  validated = validated.
Proof.
  split.
  - apply (proj1 (UserSerializer_validate_inversion mismatched)
             (ValidationError (DetailDict
                [("password", ErrorDetail "Password fields didn't match.")]))).
    reflexivity.
  - apply (proj2 (UserSerializer_validate_inversion validated) validated). reflexivity.
Defined.

Lemma ChangePassword_validate_inversion_witness :
  (∃ n, change_request "correct horse" "new-s3cret" "new-s3cret" !! "new_password" = Some n ∧
        change_request "correct horse" "new-s3cret" "new-s3cret" !! "confirm_password"
        = Some n) ∧
  (∃ n c, change_request "correct horse" "new-s3cret" "new-typo" !! "new_password" = Some n ∧
          change_request "correct horse" "new-s3cret" "new-typo" !! "confirm_password"
          = Some c ∧ n ≠ c) ∧
  (∅ : Attrs DemoUser) !! "new_password" = None.
Proof.
  split; [|split].
  - apply (proj1 (ChangePassword_validate_inversion
                    (change_request "correct horse" "new-s3cret" "new-s3cret"))
             (change_request "correct horse" "new-s3cret" "new-s3cret")).
    reflexivity.
  - apply (proj1 (proj2 (ChangePassword_validate_inversion
                           (change_request "correct horse" "new-s3cret" "new-typo")))
             (DetailDict [("confirm_password",
                           ErrorDetail "New password fields didn't match.")])).
    reflexivity.
  - apply (proj2 (proj2 (ChangePassword_validate_inversion (∅ : Attrs DemoUser)))
             "new_password").
    reflexivity.
Defined.

Lemma get_permissions_empty_witness :
  is_superuser nobody = false ∧
  UserSerializer.get_permissions (Store:=list DemoUser) [] nobody = [].
Proof.
  assert (is_superuser nobody = false) as Hsu by reflexivity.
  split; [done|].
  apply (proj2 (get_permissions_empty (Store:=list DemoUser) [] nobody Hsu)).
  split; [reflexivity|]. simpl. intros user_role.
  rewrite !elem_of_cons, elem_of_nil. intros [->|[->|[]]]; [done|discriminate].
Defined.

Lemma get_permissions_monotone_witness :
  is_superuser alice = false ∧ is_superuser carol = false ∧
  UserSerializer.get_permissions (Store:=list DemoUser) [] alice
    ⊆ UserSerializer.get_permissions (Store:=list DemoUser) [] carol.
Proof.
  split; [reflexivity|]. split; [reflexivity|].
  apply (get_permissions_monotone (Store:=list DemoUser) [] [] alice carol);
    [reflexivity|reflexivity|..]; simpl; intros x Hx; by apply list_elem_of_further.
Defined.

Lemma get_permissions_length_witness :
  is_superuser alice = false ∧
  (length (UserSerializer.get_permissions (Store:=list DemoUser) [] alice) ≤ 2)%nat.
Proof.
  split; [reflexivity|].
  etrans; [apply (get_permissions_length (Store:=list DemoUser) [] alice); reflexivity|].
  vm_compute. lia.
Defined.

Lemma get_permissions_wildcard_witness :
  is_superuser star = false ∧
  UserSerializer.get_permissions (Store:=list DemoUser) [] star = ["*"].
Proof.
  assert (is_superuser star = false) as Hsu by reflexivity.
  split; [done|].
  apply (proj2 (get_permissions_wildcard (Store:=list DemoUser) [] star Hsu)).
  simpl. split; [|split].
  - left. eexists. apply list_elem_of_here.
  - intros p. rewrite elem_of_cons, elem_of_nil. by intros [->|[]].
  - intros user_role p. rewrite elem_of_cons, elem_of_nil. intros [->|[]] _. simpl.
    rewrite elem_of_cons, elem_of_nil. by intros [->|[]].
Defined.

Lemma validated_keys_witness :
  run_validation UserSerializer.serializer false payload = Ok validated ∧
  is_Some (validated !! "username") ∧ is_Some (payload !! "username").
Proof.
  assert (run_validation UserSerializer.serializer false payload = Ok validated) as Hrun
    by (vm_compute; reflexivity).
  assert (is_Some (validated !! "username")) as Hk by by eexists.
  split; [done|]. split; [done|].
  apply (validated_keys false payload validated "username" Hrun Hk).
Defined.

Lemma passwords_required_witness :
  (∅ : Attrs DemoUser) !! "password2" = None ∧
  ∃ errors,
    run_validation UserSerializer.serializer false (∅ : Attrs DemoUser) =
      Raise (ValidationError (DetailDict errors)) ∧
    ("password2", DetailList [ErrorDetail "This field is required."]) ∈ errors.
Proof.
  split; [reflexivity|].
  apply (passwords_required (∅ : Attrs DemoUser) "password2"); [by right|reflexivity].
Defined.


Lemma partial_update_without_confirmation_witness :
  to_internal_value UserSerializer.serializer true
    ({[ "password" := VStr "s3cret-pass" ]} : Attrs DemoUser)
    = Ok {[ "password" := VStr "s3cret-pass" ]} ∧
  run_validation UserSerializer.serializer true
    ({[ "password" := VStr "s3cret-pass" ]} : Attrs DemoUser)
    = Ok {[ "password" := VStr "s3cret-pass" ]}.
Proof.
  assert (to_internal_value UserSerializer.serializer true
            ({[ "password" := VStr "s3cret-pass" ]} : Attrs DemoUser)
          = Ok {[ "password" := VStr "s3cret-pass" ]}) as Hfields
    by (vm_compute; reflexivity).
  split; [done|].
  apply (partial_update_without_confirmation (Store:=list DemoUser) _ _ Hfields);
    reflexivity.
Defined.

Lemma change_password_fields_required_witness :
  (∅ : Attrs DemoUser) !! "new_password" = None ∧
  ∃ errors,
    run_validation (ChangePasswordSerializer.serializer (Store:=list DemoUser) as_alice)
      false ∅ = Raise (ValidationError (DetailDict errors)) ∧
    ("new_password", DetailList [ErrorDetail "This field is required."]) ∈ errors.
Proof.
  split; [reflexivity|].
  apply (change_password_fields_required (Store:=list DemoUser) as_alice ∅ "new_password");
    [right; by left|reflexivity].
Defined.


Lemma change_password_accepted_witness :
  check_password alice (VStr "correct horse") = true ∧
  validate_password (VStr "new-s3cret" : Value DemoUser) = None ∧
  run_validation (ChangePasswordSerializer.serializer (Store:=list DemoUser) as_alice)
    false (change_request "correct horse" "new-s3cret" "new-s3cret") =
    Ok (<["confirm_password" := VStr "new-s3cret"]>
          (<["new_password" := VStr "new-s3cret"]>
             (<["current_password" := VStr "correct horse"]> ∅))).
Proof.
  split; [reflexivity|]. split; [reflexivity|].
  apply (change_password_accepted (Store:=list DemoUser) as_alice false
           (change_request "correct horse" "new-s3cret" "new-s3cret")
           (VStr "correct horse") (VStr "new-s3cret") (VStr "new-s3cret")
           (VStr "correct horse") (VStr "new-s3cret"));
    solve [reflexivity|discriminate].
Defined.

Lemma change_password_partial_KeyError_witness :
  to_internal_value (ChangePasswordSerializer.serializer (Store:=list DemoUser) as_alice)
    true {[ "current_password" := VStr "correct horse" ]}
    = Ok {[ "current_password" := VStr "correct horse" ]} ∧
  ∃ key,
    (key = "new_password" ∨ key = "confirm_password") ∧
    ({[ "current_password" := VStr "correct horse" ]} : Attrs DemoUser) !! key = None ∧
    run_validation (ChangePasswordSerializer.serializer (Store:=list DemoUser) as_alice)
      true {[ "current_password" := VStr "correct horse" ]} = Raise (KeyError key).
Proof.
  assert (to_internal_value
            (ChangePasswordSerializer.serializer (Store:=list DemoUser) as_alice)
            true {[ "current_password" := VStr "correct horse" ]}
          = Ok {[ "current_password" := VStr "correct horse" ]}) as Hfields
    by (vm_compute; reflexivity).
  split; [done|].
  apply (change_password_partial_KeyError (Store:=list DemoUser) as_alice _ _ Hfields).
  left. reflexivity.
Defined.

Lemma change_password_sound_witness :
  run_validation (ChangePasswordSerializer.serializer (Store:=list DemoUser) as_alice)
    false (change_request "correct horse" "new-s3cret" "new-s3cret")
    = Ok (change_request "correct horse" "new-s3cret" "new-s3cret") ∧
  check_password alice (VStr "correct horse") = true.
Proof.
  assert (run_validation
            (ChangePasswordSerializer.serializer (Store:=list DemoUser) as_alice)
            false (change_request "correct horse" "new-s3cret" "new-s3cret")
          = Ok (change_request "correct horse" "new-s3cret" "new-s3cret")) as Hrun
    by (vm_compute; reflexivity).
  split; [done|].
  apply (proj1 (proj2 (change_password_sound (Store:=list DemoUser) as_alice false _ _ Hrun))
           (VStr "correct horse")).
  reflexivity.
Defined.

Lemma user_password_sound_witness :
  run_validation UserSerializer.serializer false payload = Ok validated ∧
  default [] (validate_password (VStr "s3cret-pass" : Value DemoUser)) = [].
Proof.
  assert (run_validation UserSerializer.serializer false payload = Ok validated) as Hrun
    by (vm_compute; reflexivity).
  split; [done|].
  apply (proj1 (user_password_sound false payload validated (VStr "s3cret-pass") Hrun
                  eq_refl)).
Defined.
End MoreDemoRuns.
